(** * The HTTP binding of the CASPaxos proposer ([httpapi/http_proposer.go])

    A shallow embedding of [ProposerServer]'s request handlers.  A handler
    [func (ps *ProposerServer) handleX(w http.ResponseWriter, r *http.Request)]
    becomes a function of the proposer's state, the response writer and the
    request; it returns the proposer's state after the call together with
    what the handler left in the writer, or the panic that stopped it.

    Go data is modelled as follows: [[]byte] is [list byte], a Go [string] is
    [string], an [int] that may be negative is [Z] and a count or an index
    is [nat] (no handler does arithmetic near the bounds of [int]), an
    [http.Header] is a finite map from header names to value lists, and an
    [error] is a value of the inductive [error] below ([None] of
    [option error] is Go's [nil]). *)

From Stdlib Require Import ZArith Strings.Byte DecimalString DecimalN.
From stdpp Require Import gmap strings list.

Local Open Scope Z_scope.

Abbreviation bytes := (list byte) (only parsing).

(** ** The Go standard library, as far as the handlers use it *)

(** [bytes.Equal(a, b)]: same length and same bytes; a nil slice equals an
    empty one, as both are the empty list here. *)
Fixpoint bytes_Equal (a b : bytes) : bool :=
  match a, b with
  | [], [] => true
  | x :: a', y :: b' => Byte.eqb x y && bytes_Equal a' b'
  | _, _ => false
  end.

(** [bytes.HasPrefix(s, prefix)]. *)
Fixpoint bytes_HasPrefix (s prefix : bytes) : bool :=
  match prefix, s with
  | [], _ => true
  | _ :: _, [] => false
  | p :: prefix', c :: s' => Byte.eqb c p && bytes_HasPrefix s' prefix'
  end.

(** [bytes.Index(s, sep)]: the index of the first instance of [sep] in [s],
    or [-1] if [sep] is not present in [s]. *)
Fixpoint bytes_Index (s sep : bytes) : Z :=
  if bytes_HasPrefix s sep then 0
  else match s with
       | [] => -1
       | _ :: s' => let m := bytes_Index s' sep in
                    if m <? 0 then -1 else m + 1
       end.

(** The loop of [bytes.genSplit] with [sepSave = 0]: [n] counts the
    iterations still allowed ([i < n] in the source), each of which cuts
    [s] at the first separator; the rest of [s] is the last group. *)
Fixpoint genSplit_loop (s sep : bytes) (n : nat) : list bytes :=
  match n with
  | O => [s]
  | S n' =>
      let m := bytes_Index s sep in
      if m <? 0 then [s]
      else take (Z.to_nat m) s
             :: genSplit_loop (drop (Z.to_nat m + length sep) s) sep n'
  end.

(** [bytes.SplitN(s, sep, n)] for a non-empty [sep] and [n >= 0]: at most
    [n] groups, the last one the unsplit remainder; [n = 0] gives nil and
    [n] is capped at [len(s) + 1].  The branch for an empty separator
    (explode into UTF-8 sequences) and the one for [n < 0] are not
    modelled: the only caller passes a two-byte separator and [n = 2]. *)
Definition bytes_SplitN (s sep : bytes) (n : nat) : list bytes :=
  match n with
  | O => []
  | S _ =>
      let n := Nat.min n (length s + 1) in
      genSplit_loop s sep (n - 1)
  end.

(** [string(buf)] and [[]byte(s)]. *)
Definition string_of_bytes (b : bytes) : string := String.string_of_list_byte b.
Definition bytes_of_string (s : string) : bytes := String.list_byte_of_string s.

(** ** [net/http]: headers, status codes, the response writer *)

(** [http.Header]: [map[string][]string].  The handlers only use keys that
    are already in canonical form. *)
Abbreviation Header := (gmap string (list string)) (only parsing).

(** [h.Set(key, value)] replaces the values of [key]. *)
Definition Header_Set (h : Header) (key value : string) : Header :=
  <[key := [value]]> h.

(** [h.Get(key)]: the first value of [key], or the empty string. *)
Definition Header_Get (h : Header) (key : string) : string :=
  match h !! key with
  | Some (v :: _) => v
  | _ => ""%string
  end.

Definition StatusOK : Z := 200.
Definition StatusBadRequest : Z := 400.
Definition StatusPreconditionFailed : Z := 412.
Definition StatusInternalServerError : Z := 500.

(** What an [http.ResponseWriter] has received: the status code (200 until
    one is written), whether the status line is already out, the header
    map and the body written so far. *)
Record ResponseWriter := {
  Code : Z;
  wroteHeader : bool;
  HeaderMap : Header;
  Body : bytes;
}.

Definition NewRecorder : ResponseWriter :=
  {| Code := StatusOK; wroteHeader := false; HeaderMap := ∅; Body := [] |}.

(** [w.WriteHeader(code)]: only the first call counts. *)
Definition WriteHeader (w : ResponseWriter) (code : Z) : ResponseWriter :=
  if wroteHeader w then w
  else {| Code := code; wroteHeader := true;
          HeaderMap := HeaderMap w; Body := Body w |}.

(** [w.Write(buf)]: writes the status line with 200 if none is out yet,
    then appends [buf] to the body.  The [Content-Type] that [net/http]
    adds by sniffing [buf] on the first write, when the handler has set
    none, is not modelled: the header map here holds what the handler
    itself has set. *)
Definition Write (w : ResponseWriter) (buf : bytes) : ResponseWriter :=
  let w := WriteHeader w StatusOK in
  {| Code := Code w; wroteHeader := wroteHeader w;
     HeaderMap := HeaderMap w; Body := Body w ++ buf |}.

(** [w.Header()] followed by an update of the map in place. *)
Definition with_Header (w : ResponseWriter) (f : Header → Header) : ResponseWriter :=
  {| Code := Code w; wroteHeader := wroteHeader w;
     HeaderMap := f (HeaderMap w); Body := Body w |}.

(** [fmt.Fprintln(w, s)]: [s] and a newline. *)
Definition Fprintln (w : ResponseWriter) (s : string) : ResponseWriter :=
  Write w (bytes_of_string s ++ [x0a]).

(** [http.Error(w, error, code)]: a plain-text reply with the given status
    whose body is the message followed by a newline. *)
Definition http_Error (w : ResponseWriter) (msg : string) (code : Z) : ResponseWriter :=
  let w := with_Header w (λ h, Header_Set h "Content-Type" "text/plain; charset=utf-8") in
  let w := with_Header w (λ h, Header_Set h "X-Content-Type-Options" "nosniff") in
  let w := WriteHeader w code in
  Fprintln w msg.

(** An [*http.Request] as the handlers read it: the route variable
    [mux.Vars(r)["key"]], the headers, and the bytes [ioutil.ReadAll(r.Body)]
    returns (its error is discarded by every handler). *)
Record Request := {
  Vars_key : string;
  ReqHeader : Header;
  ReqBody : bytes;
}.

(** ** The [protocol] package, as far as the binding sees it *)

(** Modelled from the spec: the type [protocol.Ballot] is declared outside
    the sources at hand.  The spec makes a ballot the composite (counter:
    unsigned integer, proposerID), ordered by counter first and proposerID
    second. *)
Record Ballot := { Counter : N; ID : N }.

(** Modelled from the spec: the type [protocol.Age] is declared outside the
    sources at hand.  The spec calls Age "the Ballot currently recorded as
    the floor for a key", so an Age is a [Ballot]. *)
Definition Age : Type := Ballot.

(** Modelled from the spec: the error types of the [protocol] package are
    declared outside the sources at hand.  A Go [error] value is its
    dynamic type and the text its [Error()] method gives; [ConflictError]
    and [QuorumError] are the two failures the spec names (a conflict
    carries the higher ballot that was observed), [OtherError] is any
    other dynamic type. *)
Inductive error :=
| ConflictError (observed : Ballot) (text : string)
| QuorumError (text : string)
| OtherError (text : string).

(** [err.Error()]. *)
Definition Error (e : error) : string :=
  match e with
  | ConflictError _ text | QuorumError text | OtherError text => text
  end.

(** [_, ok := err.(protocol.ConflictError)] on a non-nil [err]. *)
Definition is_ConflictError (err : error) : bool :=
  match err with
  | ConflictError _ _ => true
  | _ => false
  end.

(** [AcceptorClient{URL: u}], over whatever [url.Parse] produces. *)
Record AcceptorClient (URL : Type) := { AcceptorClient_URL : URL }.
Arguments Build_AcceptorClient {URL} _.
Arguments AcceptorClient_URL {URL} _.

(** The interface [protocol.Proposer], with the methods and signatures
    the handlers call it by.  The proposer behind the interface is
    stateful, so every method takes the proposer's state [P] and returns
    the state it leaves; results are the tuples the Go methods return, with
    [None] for a nil error.  The [context.Context] argument only carries
    cancellation and is left out. *)
Record Proposer (P URL : Type) := {
  Propose : P → string → (bytes → bytes) → P * (bytes * Ballot * option error);
  AddAccepter : P → AcceptorClient URL → P * option error;
  AddPreparer : P → AcceptorClient URL → P * option error;
  RemovePreparer : P → AcceptorClient URL → P * option error;
  RemoveAccepter : P → AcceptorClient URL → P * option error;
  FullIdentityRead : P → string → P * (bytes * option error);
  FastForwardIncrement : P → string → Ballot → P * (Age * option error);
}.
Arguments Propose {P URL} _ _ _ _.
Arguments AddAccepter {P URL} _ _ _.
Arguments AddPreparer {P URL} _ _ _.
Arguments RemovePreparer {P URL} _ _ _.
Arguments RemoveAccepter {P URL} _ _ _.
Arguments FullIdentityRead {P URL} _ _ _.
Arguments FastForwardIncrement {P URL} _ _ _ _.

(** ** Ballots and ages in headers *)

(** Modelled from the spec: how a counter or an identifier is "encoded" is
    left open by the spec; here it is the decimal numeral. *)
Definition format_uint (n : N) : string := NilEmpty.string_of_uint (N.to_uint n).

(** Modelled from the spec: the reader of [format_uint]; text that is not
    a decimal numeral reads as 0. *)
Definition parse_uint (s : string) : N :=
  match NilEmpty.uint_of_string s with
  | Some d => N.of_uint d
  | None => 0%N
  end.

(** Modelled from the spec: the names of the headers are not in the
    sources at hand nor in the spec; these four stand for them. *)
Definition ballotCounterHeader : string := "X-Caspaxos-Ballot-Counter".
Definition ballotIDHeader : string := "X-Caspaxos-Ballot-Id".
Definition ageCounterHeader : string := "X-Caspaxos-Age-Counter".
Definition ageIDHeader : string := "X-Caspaxos-Age-Id".

(** Modelled from the spec: the helper [setBallot] is defined outside the
    sources at hand.  The spec only says that "Ballot and Age values cross
    the boundary as an encoded (counter, proposerID) pair"; the helper is
    handed the header map alone, so the pair goes into two headers.  The
    header names and the decimal notation are this model's choice. *)
Definition setBallot (h : Header) (b : Ballot) : Header :=
  Header_Set (Header_Set h ballotCounterHeader (format_uint (Counter b)))
             ballotIDHeader (format_uint (ID b)).

(** Modelled from the spec: the helper [getBallot] is defined outside the
    sources at hand; it reads back the pair [setBallot] encodes. *)
Definition getBallot (h : Header) : Ballot :=
  {| Counter := parse_uint (Header_Get h ballotCounterHeader);
     ID := parse_uint (Header_Get h ballotIDHeader) |}.

(** Modelled from the spec: the helper [setAge] is defined outside the
    sources at hand; an Age crosses the boundary like a Ballot, as an
    encoded (counter, proposerID) pair, under header names of its own. *)
Definition setAge (h : Header) (a : Age) : Header :=
  Header_Set (Header_Set h ageCounterHeader (format_uint (Counter a)))
             ageIDHeader (format_uint (ID a)).

(** Modelled from the spec: the client's side of [setAge], which reads
    back the pair [setAge] encodes. *)
Definition getAge (h : Header) : Age :=
  {| Counter := parse_uint (Header_Get h ageCounterHeader);
     ID := parse_uint (Header_Get h ageIDHeader) |}.

(** ** The handlers *)

(** How a handler ends: it returns, leaving [w] as given, or it panics on
    an index that is out of range ([index] into a slice of length [len]);
    [net/http] then drops the connection without a response. *)
Inductive Served :=
| Returned (w : ResponseWriter)
| Panicked (index len : nat).

(** [read] of [handleGet]. *)
Definition handleGet_read (x : bytes) : bytes := x.

(** [cas] of [handleCAS], closed over [curr] and [next]. *)
Definition handleCAS_cas (curr next : bytes) (x : bytes) : bytes :=
  if bytes_Equal x curr then next else x.

(** [cas] of [handleDel], closed over [curr] and [next]. *)
Definition handleDel_cas (curr next : bytes) (x : bytes) : bytes :=
  if bytes_Equal x curr then next else x.

(** The separator [[]byte{'\n', '\n'}] of [handleCAS]. *)
Definition separator : bytes := [x0a; x0a].

Section Handlers.

(** [url.Parse] is a parameter: a [*url.URL] or an error. *)
Context {URL : Type} (url_Parse : string → error + URL).
Context {P : Type} (proposer : Proposer P URL).

Definition handleGet (ps : P) (w : ResponseWriter) (r : Request) : P * Served :=
  let key := Vars_key r in
  let read := handleGet_read in
  let '(ps, (state, b, err)) := Propose proposer ps key read in
  match err with
  | Some e => (ps, Returned (http_Error w (Error e) StatusInternalServerError))
  | None =>
      let w := with_Header w (λ h, setBallot h b) in
      (ps, Returned (Write w state))
  end.

(** A nil [err] fails the type assertion and the test [err != nil]
    alike, so the two tests of the source are one match on [err]. *)
Definition handleCAS (ps : P) (w : ResponseWriter) (r : Request) : P * Served :=
  let key := Vars_key r in
  let buf := ReqBody r in
  let groups := bytes_SplitN buf separator 2 in
  match groups !! 0%nat with
  | None => (ps, Panicked 0 (length groups))
  | Some curr =>
  match groups !! 1%nat with
  | None => (ps, Panicked 1 (length groups))
  | Some next =>
      let cas := handleCAS_cas curr next in
      let '(ps, (state, b, err)) := Propose proposer ps key cas in
      match err with
      | Some e =>
          if is_ConflictError e then
            (ps, Returned (http_Error w (Error e) StatusPreconditionFailed))
          else
            (ps, Returned (http_Error w (Error e) StatusInternalServerError))
      | None =>
          let w := with_Header w (λ h, setBallot h b) in
          (ps, Returned (Write w state))
      end
  end
  end.

Definition handleDel (ps : P) (w : ResponseWriter) (r : Request) : P * Served :=
  let key := Vars_key r in
  let curr := ReqBody r in
  let next : bytes := [] in
  let cas := handleDel_cas curr next in
  let '(ps, (state, b, err)) := Propose proposer ps key cas in
  match err with
  | Some e => (ps, Returned (http_Error w (Error e) StatusInternalServerError))
  | None =>
      if negb (bytes_Equal state next) then
        (ps, Returned (http_Error w "conflict" StatusPreconditionFailed))
      else
        let w := with_Header w (λ h, setBallot h b) in
        (ps, Returned (Write w state))
  end.

(** The four membership handlers differ only in the proposer method they
    call; [membership] is their common body, [op] the method. *)
Definition membership (op : P → AcceptorClient URL → P * option error)
    (ps : P) (w : ResponseWriter) (r : Request) : P * Served :=
  let buf := ReqBody r in
  match url_Parse (string_of_bytes buf) with
  | inl err => (ps, Returned (http_Error w (Error err) StatusBadRequest))
  | inr u =>
      let target := Build_AcceptorClient u in
      let '(ps, err) := op ps target in
      match err with
      | Some e => (ps, Returned (http_Error w (Error e) StatusInternalServerError))
      | None => (ps, Returned (Fprintln w "OK"))
      end
  end.

Definition handleAddAccepter := membership (AddAccepter proposer).
Definition handleAddPreparer := membership (AddPreparer proposer).
Definition handleRemovePreparer := membership (RemovePreparer proposer).
Definition handleRemoveAccepter := membership (RemoveAccepter proposer).

Definition handleFullIdentityRead (ps : P) (w : ResponseWriter) (r : Request) : P * Served :=
  let key := Vars_key r in
  let '(ps, (state, err)) := FullIdentityRead proposer ps key in
  match err with
  | Some e => (ps, Returned (http_Error w (Error e) StatusInternalServerError))
  | None => (ps, Returned (Write w state))
  end.

Definition handleFastForwardIncrement (ps : P) (w : ResponseWriter) (r : Request) : P * Served :=
  let key := Vars_key r in
  let tombstone := getBallot (ReqHeader r) in
  let '(ps, (age, err)) := FastForwardIncrement proposer ps key tombstone in
  match err with
  | Some e => (ps, Returned (http_Error w (Error e) StatusInternalServerError))
  | None =>
      let w := with_Header w (λ h, setAge h age) in
      (ps, Returned (Fprintln w "OK"))
  end.

End Handlers.

(** ** A proposer to run the handlers against *)

Module Reference.

(** Modelled from the spec: the implementation of [protocol.Proposer] is
    outside the sources at hand.  This is the proposer of the spec seen
    from one caller, with the replicas folded into what a quorum of them
    holds: per key the installed ballot and state ([registers]; a key
    never proposed holds the empty state), the proposer's identifier and
    ballot clock, the two replica sets, and [rounds], the failures the
    environment has in store for the coming rounds (a lost ballot, a
    missing quorum); when it is exhausted, or holds [None], the round
    goes through. *)
Record state := {
  proposerID : N;
  clock : N;
  registers : gmap string (Ballot * bytes);
  preparers : list (AcceptorClient string);
  accepters : list (AcceptorClient string);
  rounds : list (option error);
}.

(** Modelled from the spec: the ballot below every allocated one. *)
Definition zeroBallot : Ballot := {| Counter := 0; ID := 0 |}.

(** Modelled from the spec: what a Prepare quorum reports for a key, the
    empty state for a key never proposed. *)
Definition held (s : state) (key : string) : Ballot * bytes :=
  default (zeroBallot, []) (registers s !! key).

(** Modelled from the spec: the environment's verdict on the next round,
    and the state with that verdict consumed. *)
Definition next_round (s : state) : option error * state :=
  match rounds s with
  | [] => (None, s)
  | o :: rest =>
      (o, {| proposerID := proposerID s; clock := clock s;
             registers := registers s; preparers := preparers s;
             accepters := accepters s; rounds := rest |})
  end.

(** Modelled from the spec: a successful Accept of [v] under [b]. *)
Definition install (s : state) (key : string) (b : Ballot) (v : bytes) : state :=
  {| proposerID := proposerID s; clock := Counter b;
     registers := <[key := (b, v)]> (registers s);
     preparers := preparers s; accepters := accepters s;
     rounds := rounds s |}.

(** Modelled from the spec (section 4.1): a ballot above every ballot
    seen so far is allocated, the update function is applied to the state
    the Prepare quorum reports, and the result is installed under the new
    ballot; a failed round returns its error and installs nothing. *)
Definition propose (s : state) (key : string) (f : bytes → bytes)
    : state * (bytes * Ballot * option error) :=
  let '(verdict, s) := next_round s in
  match verdict with
  | Some e => (s, ([], zeroBallot, Some e))
  | None =>
      let '(seen, base) := held s key in
      let b := {| Counter := N.max (clock s) (Counter seen) + 1;
                  ID := proposerID s |} in
      let candidate := f base in
      (install s key b candidate, (candidate, b, None))
  end.

(** Modelled from the spec (section 4.3): the Prepare phase alone; the
    selected state is returned and nothing is written. *)
Definition fullIdentityRead (s : state) (key : string)
    : state * (bytes * option error) :=
  let '(verdict, s) := next_round s in
  match verdict with
  | Some e => (s, ([], Some e))
  | None => (s, ((held s key).2, None))
  end.

(** Modelled from the spec (section 4.4): the key's ballot is forced
    strictly above the tombstone and above what is held, the state is
    kept, and the installed ballot is returned as the Age. *)
Definition fastForwardIncrement (s : state) (key : string) (tombstone : Ballot)
    : state * (Age * option error) :=
  let '(verdict, s) := next_round s in
  match verdict with
  | Some e => (s, (zeroBallot, Some e))
  | None =>
      let '(seen, base) := held s key in
      let top := N.max (clock s) (N.max (Counter tombstone) (Counter seen)) in
      let b := {| Counter := top + 1; ID := proposerID s |} in
      (install s key b base, (b, None))
  end.

(** Modelled from the spec: replicas are told apart by their endpoint. *)
Definition same_target (a b : AcceptorClient string) : bool :=
  String.eqb (AcceptorClient_URL a) (AcceptorClient_URL b).

(** Modelled from the spec (section 4.2): each of the four membership
    operations publishes a new copy of one replica set. *)
Definition addAccepter (s : state) (t : AcceptorClient string) : state * option error :=
  ({| proposerID := proposerID s; clock := clock s; registers := registers s;
      preparers := preparers s; accepters := accepters s ++ [t];
      rounds := rounds s |}, None).

(** Modelled from the spec (section 4.2), as [addAccepter]. *)
Definition addPreparer (s : state) (t : AcceptorClient string) : state * option error :=
  ({| proposerID := proposerID s; clock := clock s; registers := registers s;
      preparers := preparers s ++ [t]; accepters := accepters s;
      rounds := rounds s |}, None).

(** Modelled from the spec (section 4.2), as [addAccepter]. *)
Definition removePreparer (s : state) (t : AcceptorClient string) : state * option error :=
  ({| proposerID := proposerID s; clock := clock s; registers := registers s;
      preparers := List.filter (λ a, negb (same_target a t)) (preparers s);
      accepters := accepters s; rounds := rounds s |}, None).

(** Modelled from the spec (section 4.2), as [addAccepter]. *)
Definition removeAccepter (s : state) (t : AcceptorClient string) : state * option error :=
  ({| proposerID := proposerID s; clock := clock s; registers := registers s;
      preparers := preparers s;
      accepters := List.filter (λ a, negb (same_target a t)) (accepters s);
      rounds := rounds s |}, None).

(** Modelled from the spec: the operations above behind the interface. *)
Definition proposer : Proposer state string :=
  {| Propose := propose;
     AddAccepter := addAccepter;
     AddPreparer := addPreparer;
     RemovePreparer := removePreparer;
     RemoveAccepter := removeAccepter;
     FullIdentityRead := fullIdentityRead;
     FastForwardIncrement := fastForwardIncrement |}.

(** Modelled from the spec: a proposer with identifier 1, nothing
    proposed yet, empty replica sets, and the given failures in store. *)
Definition fresh (failures : list (option error)) : state :=
  {| proposerID := 1; clock := 0; registers := ∅;
     preparers := []; accepters := []; rounds := failures |}.

(** A stand-in for [url.Parse], to run the membership handlers on
    concrete requests; the handlers themselves take [url.Parse] as a
    parameter.  Like [net/url] it rejects text that holds an ASCII control
    character; the URL it returns is the text itself.  It is not
    [net/url]: it accepts text the real parser rejects for other reasons,
    and its error text lacks the prefix [parse "...":] of [url.Error]. *)
Definition url_Parse_is_control (c : byte) : bool :=
  let n := Byte.to_N c in ((n <? 32) || (n =? 127))%N.

Definition url_Parse (rawurl : string) : error + string :=
  if existsb url_Parse_is_control (bytes_of_string rawurl)
  then inl (OtherError "net/url: invalid control character in URL")
  else inr rawurl.

End Reference.

(** A proposer wrapped so that every call made through the interface is
    logged, in order, next to the wrapped proposer's state: what a handler
    passed to which method can then be read off the log. *)
Module Spy.

Inductive call (URL : Type) :=
| CallPropose (key : string) (f : bytes → bytes)
| CallAddAccepter (target : AcceptorClient URL)
| CallAddPreparer (target : AcceptorClient URL)
| CallRemovePreparer (target : AcceptorClient URL)
| CallRemoveAccepter (target : AcceptorClient URL)
| CallFullIdentityRead (key : string)
| CallFastForwardIncrement (key : string) (tombstone : Ballot).
Arguments CallPropose {URL} _ _.
Arguments CallAddAccepter {URL} _.
Arguments CallAddPreparer {URL} _.
Arguments CallRemovePreparer {URL} _.
Arguments CallRemoveAccepter {URL} _.
Arguments CallFullIdentityRead {URL} _.
Arguments CallFastForwardIncrement {URL} _ _.

Definition logged {P URL A} (c : call URL) (run : P → P * A)
    (s : P * list (call URL)) : (P * list (call URL)) * A :=
  let '(ps, res) := run s.1 in ((ps, s.2 ++ [c]), res).

Definition spy {P URL} (p : Proposer P URL) : Proposer (P * list (call URL)) URL :=
  {| Propose := λ s key f, logged (CallPropose key f) (λ ps, Propose p ps key f) s;
     AddAccepter := λ s t, logged (CallAddAccepter t) (λ ps, AddAccepter p ps t) s;
     AddPreparer := λ s t, logged (CallAddPreparer t) (λ ps, AddPreparer p ps t) s;
     RemovePreparer := λ s t, logged (CallRemovePreparer t) (λ ps, RemovePreparer p ps t) s;
     RemoveAccepter := λ s t, logged (CallRemoveAccepter t) (λ ps, RemoveAccepter p ps t) s;
     FullIdentityRead := λ s key, logged (CallFullIdentityRead key) (λ ps, FullIdentityRead p ps key) s;
     FastForwardIncrement := λ s key t,
       logged (CallFastForwardIncrement key t) (λ ps, FastForwardIncrement p ps key t) s |}.

End Spy.

(** A round of [Propose] that goes through: the update function [f] is
    applied to the base state [base] the Prepare quorum selected, and
    [f base] is installed under ballot [b] and returned with a nil error. *)
Definition round_succeeds {P URL} (proposer : Proposer P URL)
    (ps : P) (key : string) (f : bytes → bytes) (base : bytes) (b : Ballot) (ps' : P) : Prop :=
  Propose proposer ps key f = (ps', (f base, b, None)).

(** The reply of a handler that ends in [setBallot(w.Header(), b)] and
    [w.Write(state)] on a fresh writer. *)
Definition ok_reply (b : Ballot) (state : bytes) : ResponseWriter :=
  {| Code := StatusOK; wroteHeader := true;
     HeaderMap := setBallot ∅ b; Body := state |}.

(** What [fmt.Fprintln], and so [http.Error], writes for a text: the text
    and a line feed. *)
Definition line (text : string) : bytes := bytes_of_string text ++ [x0a].

(** A CAS request carries [(expect, set)] when its body splits into these
    two groups. *)
Definition carries (r : Request) (expect set : bytes) : Prop :=
  bytes_SplitN (ReqBody r) separator 2 = [expect; set].

(** ** Concrete requests and proposers, for the examples below *)

Module Sample.

Definition post (key : string) (body : bytes) : Request :=
  {| Vars_key := key; ReqHeader := ∅; ReqBody := body |}.

(** The body of a CAS request for [(expect, set)]. *)
Definition cas_body (expect set : bytes) : bytes := expect ++ separator ++ set.

Definition bar : bytes := bytes_of_string "bar".
Definition stale : bytes := bytes_of_string "stale".
Definition baz : bytes := bytes_of_string "baz".

(** A ballot held by a competing proposer, and the error a round that
    loses against it returns. *)
Definition rival : Ballot := {| Counter := 9; ID := 2 |}.
Definition lost : error := ConflictError rival "conflict: ballot 9/2 is ahead".

(** The reference proposer after key "foo" was set to "bar". *)
Definition holding_bar : Reference.state :=
  (Reference.propose (Reference.fresh []) "foo" (λ _, bar)).1.

(** A replica address with a line feed in it, which [url.Parse] rejects. *)
Definition malformed : bytes := bytes_of_string "http://replica" ++ [x0a].

Definition tombstone : Ballot := {| Counter := 100; ID := 7 |}.

Definition fast_forward (key : string) (t : Ballot) : Request :=
  {| Vars_key := key; ReqHeader := setBallot ∅ t; ReqBody := [] |}.

(** An expected value that ends in a line feed, and the pieces the CAS
    handler cuts a body written for it into. *)
Definition letter_a : bytes := bytes_of_string "a".
Definition letter_b : bytes := bytes_of_string "b".
Definition a_line : bytes := letter_a ++ [x0a].
Definition line_b : bytes := [x0a] ++ letter_b.

(** The reference proposer after key "foo" was set to "a" and a line
    feed. *)
Definition holding_a_line : Reference.state :=
  (Reference.propose (Reference.fresh []) "foo" (λ _, a_line)).1.

(** A well-formed replica address. *)
Definition replica : bytes := bytes_of_string "http://replica:8080".

(** The error of a round that could not gather a majority. *)
Definition quorum : error := QuorumError "not enough replicas responded".

End Sample.

(** The reply of a membership handler on a fresh writer, once the
    proposer's method has returned [err]. *)
Definition membership_reply (err : option error) : ResponseWriter :=
  match err with
  | Some e => http_Error NewRecorder (Error e) StatusInternalServerError
  | None => Fprintln NewRecorder "OK"
  end.

(** A handler ended by returning, with its status line written and a
    status code among [codes]. *)
Definition answers (codes : list Z) (served : Served) : Prop :=
  ∃ w, served = Returned w ∧ wroteHeader w = true ∧ Code w ∈ codes.

(** The text [sep] occurs in [s]. *)
Definition occurs_in (sep s : bytes) : Prop := ∃ a b, s = a ++ sep ++ b.

(** ** Facts about the byte-slice functions *)

Lemma bytes_Equal_true (a b : bytes) : bytes_Equal a b = true ↔ a = b.
Proof.
  revert b; induction a as [|x a IH]; intros [|y b]; simpl; try (split; [discriminate|done]); [done|].
  rewrite andb_true_iff, IH. split.
  - intros [Hxy ->]. by rewrite (byte_dec_bl _ _ Hxy).
  - intros [= -> ->]. split; [by apply byte_dec_lb|done].
Qed.

Lemma bytes_Equal_false (a b : bytes) : bytes_Equal a b = false ↔ a ≠ b.
Proof.
  rewrite <- bytes_Equal_true. destruct (bytes_Equal a b); split; congruence.
Qed.

Lemma bytes_Equal_refl (a : bytes) : bytes_Equal a a = true.
Proof. by apply bytes_Equal_true. Qed.

Lemma bytes_HasPrefix_true (s prefix : bytes) :
  bytes_HasPrefix s prefix = true ↔ ∃ t, s = prefix ++ t.
Proof.
  revert s; induction prefix as [|p prefix IH]; intros s; simpl.
  - split; [intros _; by exists s|by destruct s].
  - destruct s as [|c s]; simpl.
    + split; [discriminate|]. by intros [t Ht].
    + rewrite andb_true_iff, IH. split.
      * intros [Hcp [t ->]]. exists t. by rewrite (byte_dec_bl _ _ Hcp).
      * intros [t [= -> ->]]. split; [by apply byte_dec_lb|by exists t].
Qed.

(** [bytes.Index] answers [-1] or a position inside [s]. *)
Lemma bytes_Index_range (s sep : bytes) :
  bytes_Index s sep = -1 ∨ 0 ≤ bytes_Index s sep ≤ Z.of_nat (length s).
Proof.
  induction s as [|c s IH]; cbn [bytes_Index length].
  - destruct (bytes_HasPrefix [] sep); lia.
  - destruct (bytes_HasPrefix (c :: s) sep); [lia|].
    destruct (Z.ltb_spec (bytes_Index s sep) 0); lia.
Qed.

(** At a position [bytes.Index] reports, [s] reads [sep]. *)
Lemma bytes_Index_found (s sep : bytes) (m : nat) :
  bytes_Index s sep = Z.of_nat m →
  s = take m s ++ sep ++ drop (m + length sep) s.
Proof.
  revert m; induction s as [|c s IH]; intros m; cbn [bytes_Index].
  - destruct (bytes_HasPrefix [] sep) eqn:Hp; [|lia].
    apply bytes_HasPrefix_true in Hp as [t Ht].
    symmetry in Ht. apply app_eq_nil in Ht as [-> ->].
    intros _. by destruct m.
  - destruct (bytes_HasPrefix (c :: s) sep) eqn:Hp.
    + intros Hm. assert (m = 0%nat) as -> by lia.
      apply bytes_HasPrefix_true in Hp as [t Ht]. simpl.
      rewrite Ht at 1. f_equal. rewrite Ht.
      by rewrite drop_app_length.
    + destruct (Z.ltb_spec (bytes_Index s sep) 0) as [|Hge]; [lia|].
      intros Hm. destruct m as [|m]; [lia|].
      simpl. f_equal. apply IH. lia.
Qed.

(** [bytes.Index] answers [-1] only when [sep] occurs nowhere in [s]. *)
Lemma bytes_Index_absent (s sep : bytes) :
  bytes_Index s sep < 0 ↔ ∀ a b, s ≠ a ++ sep ++ b.
Proof.
  induction s as [|c s IH]; cbn [bytes_Index].
  - destruct (bytes_HasPrefix [] sep) eqn:Hp.
    + split; [lia|]. intros Hno. apply bytes_HasPrefix_true in Hp as [t Ht].
      by destruct (Hno [] t).
    + split; [|lia]. intros _ a b Hab.
      assert (bytes_HasPrefix [] sep = true); [|congruence].
      apply bytes_HasPrefix_true. symmetry in Hab.
      apply app_eq_nil in Hab as [_ Hab]. apply app_eq_nil in Hab as [-> _].
      by exists [].
  - destruct (bytes_HasPrefix (c :: s) sep) eqn:Hp.
    + split; [lia|]. intros Hno. apply bytes_HasPrefix_true in Hp as [t Ht].
      by destruct (Hno [] t).
    + assert ((if bytes_Index s sep <? 0 then -1 else bytes_Index s sep + 1) < 0
              ↔ bytes_Index s sep < 0) as ->.
      { destruct (Z.ltb_spec (bytes_Index s sep) 0); lia. }
      rewrite IH. split.
      * intros Hno [|a0 a] b Hab.
        -- assert (bytes_HasPrefix (c :: s) sep = true); [|congruence].
           apply bytes_HasPrefix_true. by exists b.
        -- injection Hab as -> Hab. by apply (Hno a b).
      * intros Hno a b ->. by apply (Hno (c :: a) b).
Qed.

(** If [sep] does not begin inside [a], the first [sep] of
    [a ++ sep ++ b] is the one written after [a]. *)
Lemma bytes_Index_first (a sep b : bytes) :
  (∀ i, (i < length a)%nat → bytes_HasPrefix (drop i (a ++ sep ++ b)) sep = false) →
  bytes_Index (a ++ sep ++ b) sep = Z.of_nat (length a).
Proof.
  induction a as [|c a IH]; intros Hno.
  - cbn [app length].
    assert (bytes_HasPrefix (sep ++ b) sep = true) as Hp.
    { apply bytes_HasPrefix_true. by exists b. }
    destruct (sep ++ b); cbn [bytes_Index]; by rewrite Hp.
  - pose proof (Hno 0%nat ltac:(simpl; lia)) as H0.
    cbn [app drop] in H0. cbn [app bytes_Index]. rewrite H0.
    rewrite IH.
    + destruct (Z.ltb_spec (Z.of_nat (length a)) 0); [lia|]. simpl length. lia.
    + intros i Hi. apply (Hno (S i)). simpl. lia.
Qed.

(** [bytes.SplitN(s, "\n\n", 2)] without a separator in [s]: one group. *)
Lemma bytes_SplitN_absent (s : bytes) :
  bytes_Index s separator < 0 → bytes_SplitN s separator 2 = [s].
Proof.
  intros Hm. unfold bytes_SplitN.
  destruct (Nat.min 2 (length s + 1) - 1)%nat; cbn [genSplit_loop]; [done|].
  by destruct (Z.ltb_spec (bytes_Index s separator) 0); [|lia].
Qed.

(** [bytes.SplitN(s, "\n\n", 2)] with a separator in [s]: what is before
    the first one, and what is after it. *)
Lemma bytes_SplitN_present (s : bytes) (m : nat) :
  bytes_Index s separator = Z.of_nat m →
  bytes_SplitN s separator 2 = [take m s; drop (m + 2) s].
Proof.
  intros Hm. pose proof (bytes_Index_found _ _ _ Hm) as Hs.
  assert (2 ≤ length s)%nat as Hlen.
  { rewrite Hs, !length_app. simpl. lia. }
  unfold bytes_SplitN.
  replace (Nat.min 2 (length s + 1) - 1)%nat with 1%nat by lia.
  cbn [genSplit_loop]. rewrite Hm.
  destruct (Z.ltb_spec (Z.of_nat m) 0); [lia|].
  by rewrite Nat2Z.id.
Qed.

(** Every body splits into one group or two. *)
Lemma bytes_SplitN_groups (s : bytes) :
  (bytes_Index s separator < 0 ∧ bytes_SplitN s separator 2 = [s]) ∨
  (∃ curr next, bytes_SplitN s separator 2 = [curr; next] ∧ s = curr ++ separator ++ next).
Proof.
  destruct (bytes_Index_range s separator) as [Hm|Hm].
  - left. split; [lia|]. apply bytes_SplitN_absent. lia.
  - right. assert (bytes_Index s separator = Z.of_nat (Z.to_nat (bytes_Index s separator))) as Hn by lia.
    eexists _, _. split; [by apply bytes_SplitN_present|].
    by apply bytes_Index_found in Hn.
Qed.

(** A body written as [expect ++ "\n\n" ++ set] is read back as
    [(expect, set)] when [expect] holds no line feed. *)
Lemma carries_cas_body (key : string) (expect set : bytes) :
  x0a ∉ expect → carries (Sample.post key (Sample.cas_body expect set)) expect set.
Proof.
  intros Hnl. unfold carries, Sample.post, Sample.cas_body. cbn [ReqBody].
  assert (bytes_Index (expect ++ separator ++ set) separator = Z.of_nat (length expect)) as Hm.
  { apply bytes_Index_first. intros i Hi.
    rewrite drop_app_le by lia.
    destruct (drop i expect) as [|c rest] eqn:Hd.
    { apply (f_equal length) in Hd. rewrite length_drop in Hd. simpl in Hd. lia. }
    assert (c ∈ expect) as Hc.
    { rewrite <- (take_drop i expect), Hd. apply elem_of_app. right. left. }
    cbn. destruct (Byte.eqb c x0a) eqn:Hcx; [|done].
    apply byte_dec_bl in Hcx. by subst c. }
  rewrite (bytes_SplitN_present _ _ Hm).
  rewrite take_app_length.
  replace (length expect + 2)%nat with (length (expect ++ separator)) by (rewrite length_app; done).
  by rewrite (app_assoc expect), drop_app_length.
Qed.

(** [bytes.Index] reports the first occurrence: no position after the
    start of any occurrence. *)
Lemma bytes_Index_le (p sep t : bytes) :
  0 ≤ bytes_Index (p ++ sep ++ t) sep ≤ Z.of_nat (length p).
Proof.
  induction p as [|c p IH].
  - cbn [app length].
    assert (bytes_HasPrefix (sep ++ t) sep = true) as Hp.
    { apply bytes_HasPrefix_true. by exists t. }
    destruct (sep ++ t); cbn [bytes_Index]; rewrite Hp; lia.
  - cbn [app bytes_Index length].
    destruct (bytes_HasPrefix (c :: p ++ sep ++ t) sep); [lia|].
    destruct (Z.ltb_spec (bytes_Index (p ++ sep ++ t) sep) 0); lia.
Qed.

(** A separator that begins inside [a], in a text that goes on with a
    separator after [a], lies within [a] and the line feed after it. *)
Lemma separator_begins_inside (a b : bytes) (i : nat) :
  (i < length a)%nat →
  bytes_HasPrefix (drop i (a ++ separator ++ b)) separator = true →
  occurs_in separator (a ++ [x0a]).
Proof.
  intros Hi Hp. rewrite drop_app_le in Hp by lia.
  apply bytes_HasPrefix_true in Hp as [t Ht].
  pose proof (take_drop i a) as Ha.
  destruct (drop i a) as [|c [|d rest]] eqn:Hd.
  - apply (f_equal length) in Hd. rewrite length_drop in Hd. simpl in Hd. lia.
  - injection Ht as -> _. exists (take i a), [].
    rewrite <- Ha at 1. by rewrite <- app_assoc.
  - injection Ht as -> -> _. exists (take i a), (rest ++ [x0a]).
    rewrite <- Ha at 1. by rewrite <- !app_assoc.
Qed.

(** The two groups of a CAS body are cut at its first separator. *)
Lemma carries_cut (r : Request) (curr next : bytes) :
  carries r curr next →
  bytes_Index (ReqBody r) separator = Z.of_nat (length curr)
  ∧ ReqBody r = curr ++ separator ++ next.
Proof.
  unfold carries. intros Hc.
  destruct (bytes_Index_range (ReqBody r) separator) as [Hm|Hm].
  - rewrite bytes_SplitN_absent in Hc by lia. discriminate.
  - assert (bytes_Index (ReqBody r) separator
            = Z.of_nat (Z.to_nat (bytes_Index (ReqBody r) separator))) as Hn by lia.
    rewrite (bytes_SplitN_present _ _ Hn) in Hc. injection Hc as <- <-.
    rewrite length_take. split; [lia|].
    by apply bytes_Index_found in Hn.
Qed.

(** A text written as [expect ++ "\n\n" ++ set] whose first separator is
    the one after [expect] is read back as [(expect, set)]. *)
Lemma carries_of_first (key : string) (h : gmap string (list string)) (expect set : bytes) :
  bytes_Index (expect ++ separator ++ set) separator = Z.of_nat (length expect) →
  carries {| Vars_key := key; ReqHeader := h; ReqBody := expect ++ separator ++ set |}
          expect set.
Proof.
  intros Hm. unfold carries. cbn [ReqBody].
  rewrite (bytes_SplitN_present _ _ Hm), take_app_length.
  replace (length expect + 2)%nat with (length (expect ++ separator))
    by (rewrite length_app; done).
  by rewrite (app_assoc expect), drop_app_length.
Qed.

(** No separator begins before the cut of a CAS body. *)
Lemma carries_no_earlier_separator (r : Request) (curr next : bytes) :
  carries r curr next → ¬ occurs_in separator (curr ++ [x0a]).
Proof.
  intros Hc [p [q Hpq]]. apply carries_cut in Hc as [Hm Hb].
  assert (ReqBody r = p ++ separator ++ (q ++ x0a :: next)) as Hb'.
  { rewrite Hb. change (separator ++ next) with ([x0a] ++ x0a :: next).
    rewrite (app_assoc curr), Hpq. by rewrite <- !app_assoc. }
  pose proof (bytes_Index_le p separator (q ++ x0a :: next)) as Hle.
  rewrite <- Hb', Hm in Hle.
  apply (f_equal length) in Hpq. rewrite !length_app in Hpq. simpl in Hpq. lia.
Qed.

(** A body written as [expect ++ "\n\n" ++ set], with no separator that
    begins inside [expect], carries [(expect, set)]. *)
Lemma carries_of_body (r : Request) (expect set : bytes) :
  ReqBody r = expect ++ separator ++ set →
  ¬ occurs_in separator (expect ++ [x0a]) →
  carries r expect set.
Proof.
  intros Hb Hno.
  assert (bytes_Index (expect ++ separator ++ set) separator = Z.of_nat (length expect)) as Hm.
  { apply bytes_Index_first. intros i Hi.
    destruct (bytes_HasPrefix (drop i (expect ++ separator ++ set)) separator) eqn:Hp; [|done].
    destruct Hno. by apply (separator_begins_inside expect set i). }
  pose proof (carries_of_first (Vars_key r) (ReqHeader r) expect set Hm) as Hc.
  unfold carries in *. cbn [ReqBody] in Hc. by rewrite Hb.
Qed.

(** ** Facts about the response writer and the header codec *)

Lemma http_Error_fresh (msg : string) (code : Z) :
  http_Error NewRecorder msg code =
  {| Code := code; wroteHeader := true;
     HeaderMap := Header_Set (Header_Set ∅ "Content-Type" "text/plain; charset=utf-8")
                             "X-Content-Type-Options" "nosniff";
     Body := line msg |}.
Proof. reflexivity. Qed.

Lemma parse_format_uint (n : N) : parse_uint (format_uint n) = n.
Proof.
  unfold parse_uint, format_uint. rewrite NilEmpty.usu. apply Unsigned.of_to.
Qed.

Lemma Header_Get_Set (h : gmap string (list string)) (key key' value : string) :
  Header_Get (Header_Set h key value) key' =
  if decide (key = key') then value else Header_Get h key'.
Proof.
  unfold Header_Get, Header_Set. rewrite lookup_insert. by case_decide.
Qed.

(** What [setBallot] writes, [getBallot] reads. *)
Lemma getBallot_setBallot (h : gmap string (list string)) (b : Ballot) :
  getBallot (setBallot h b) = b.
Proof.
  destruct b as [c i]. unfold getBallot, setBallot. rewrite !Header_Get_Set.
  repeat case_decide; try done; cbn [Counter ID]; by rewrite !parse_format_uint.
Qed.

(** What [setAge] writes, [getAge] reads. *)
Lemma getAge_setAge (h : gmap string (list string)) (a : Age) :
  getAge (setAge h a) = a.
Proof.
  destruct a as [c i]. unfold getAge, setAge. rewrite !Header_Get_Set.
  repeat case_decide; try done; cbn [Counter ID]; by rewrite !parse_format_uint.
Qed.

(** ** Facts about the reference proposer *)

(** With no failure in store the reference proposer's round goes through
    on the state it holds for the key. *)
Lemma Reference_round_succeeds (s : Reference.state) (key : string) (f : bytes → bytes) :
  Reference.rounds s = [] →
  ∃ b s', round_succeeds Reference.proposer s key f (Reference.held s key).2 b s'
          ∧ (Reference.held s' key).2 = f (Reference.held s key).2.
Proof.
  intros Hr. unfold round_succeeds. cbn [Propose Reference.proposer].
  unfold Reference.propose, Reference.next_round. rewrite Hr.
  destruct (Reference.held s key) as [seen base] eqn:Hh. cbn [snd].
  eexists _, _. split; [reflexivity|].
  unfold Reference.held, Reference.install. cbn [Reference.registers].
  by rewrite lookup_insert_eq.
Qed.

(** ** Facts about the handlers, for any proposer *)

Section HandlerFacts.

Context {URL P : Type} (url_Parse : string → error + URL).
Context (proposer : Proposer P URL).

(** A call through the spy is the wrapped call, with one more log entry. *)
Lemma spy_Propose ps log key f ps' res :
  Propose proposer ps key f = (ps', res) →
  Propose (Spy.spy proposer) (ps, log) key f
  = ((ps', log ++ [Spy.CallPropose key f]), res).
Proof. intros H. cbn. unfold Spy.logged. cbn. by rewrite H. Qed.

Lemma spy_FastForwardIncrement ps log key t ps' res :
  FastForwardIncrement proposer ps key t = (ps', res) →
  FastForwardIncrement (Spy.spy proposer) (ps, log) key t
  = ((ps', log ++ [Spy.CallFastForwardIncrement key t]), res).
Proof. intros H. cbn. unfold Spy.logged. cbn. by rewrite H. Qed.

(** [handleGet]: any error of [Propose], a conflict included, is
    answered with 500. *)
Lemma handleGet_error ps r ps' state b e :
  Propose proposer ps (Vars_key r) handleGet_read = (ps', (state, b, Some e)) →
  handleGet proposer ps NewRecorder r
  = (ps', Returned (http_Error NewRecorder (Error e) StatusInternalServerError)).
Proof. intros H. unfold handleGet. by rewrite H. Qed.

Lemma handleGet_ok ps r ps' state b :
  Propose proposer ps (Vars_key r) handleGet_read = (ps', (state, b, None)) →
  handleGet proposer ps NewRecorder r = (ps', Returned (ok_reply b state)).
Proof. intros H. unfold handleGet. by rewrite H. Qed.

(** [handleCAS] on a body without separator: [groups] has one element
    and [groups[1]] panics, before the proposer is called. *)
Lemma handleCAS_no_separator ps w r :
  (∀ a b, ReqBody r ≠ a ++ separator ++ b) →
  length (bytes_SplitN (ReqBody r) separator 2) = 1%nat ∧
  handleCAS proposer ps w r = (ps, Panicked 1 1).
Proof.
  intros Hno. apply bytes_Index_absent in Hno.
  unfold handleCAS. by rewrite (bytes_SplitN_absent _ Hno).
Qed.

(** [handleCAS]: a conflict is answered with 412, any other error
    with 500. *)
Lemma handleCAS_error ps r expect set ps' state b e :
  carries r expect set →
  Propose proposer ps (Vars_key r) (handleCAS_cas expect set) = (ps', (state, b, Some e)) →
  handleCAS proposer ps NewRecorder r
  = (ps', Returned (http_Error NewRecorder (Error e)
                      (if is_ConflictError e then StatusPreconditionFailed
                       else StatusInternalServerError))).
Proof.
  intros Hc H. unfold handleCAS. rewrite Hc. cbn [lookup list_lookup].
  rewrite H. by destruct e.
Qed.

Lemma handleCAS_ok ps r expect set ps' state b :
  carries r expect set →
  Propose proposer ps (Vars_key r) (handleCAS_cas expect set) = (ps', (state, b, None)) →
  handleCAS proposer ps NewRecorder r = (ps', Returned (ok_reply b state)).
Proof.
  intros Hc H. unfold handleCAS. rewrite Hc. cbn [lookup list_lookup].
  by rewrite H.
Qed.

(** [handleDel]: any error of [Propose], a conflict included, is
    answered with 500. *)
Lemma handleDel_error ps r ps' state b e :
  Propose proposer ps (Vars_key r) (handleDel_cas (ReqBody r) []) = (ps', (state, b, Some e)) →
  handleDel proposer ps NewRecorder r
  = (ps', Returned (http_Error NewRecorder (Error e) StatusInternalServerError)).
Proof. intros H. unfold handleDel. by rewrite H. Qed.

Lemma handleDel_ok ps r ps' state b :
  Propose proposer ps (Vars_key r) (handleDel_cas (ReqBody r) []) = (ps', (state, b, None)) →
  handleDel proposer ps NewRecorder r
  = (ps', Returned (if bytes_Equal state [] then ok_reply b state
                    else http_Error NewRecorder "conflict" StatusPreconditionFailed)).
Proof.
  intros H. unfold handleDel. rewrite H.
  by destruct (bytes_Equal state []).
Qed.

(** [handleFullIdentityRead] and [handleFastForwardIncrement]: any error
    is answered with 500. *)
Lemma handleFullIdentityRead_error ps r ps' state e :
  FullIdentityRead proposer ps (Vars_key r) = (ps', (state, Some e)) →
  handleFullIdentityRead proposer ps NewRecorder r
  = (ps', Returned (http_Error NewRecorder (Error e) StatusInternalServerError)).
Proof. intros H. unfold handleFullIdentityRead. by rewrite H. Qed.

Lemma handleFastForwardIncrement_error ps r ps' age e :
  FastForwardIncrement proposer ps (Vars_key r) (getBallot (ReqHeader r)) = (ps', (age, Some e)) →
  handleFastForwardIncrement proposer ps NewRecorder r
  = (ps', Returned (http_Error NewRecorder (Error e) StatusInternalServerError)).
Proof. intros H. unfold handleFastForwardIncrement. by rewrite H. Qed.

Lemma handleFastForwardIncrement_ok ps r ps' age :
  FastForwardIncrement proposer ps (Vars_key r) (getBallot (ReqHeader r)) = (ps', (age, None)) →
  handleFastForwardIncrement proposer ps NewRecorder r
  = (ps', Returned {| Code := StatusOK; wroteHeader := true;
                      HeaderMap := setAge ∅ age; Body := line "OK" |}).
Proof. intros H. unfold handleFastForwardIncrement. by rewrite H. Qed.

(** The common body of the membership handlers on a descriptor that
    [url.Parse] rejects: 400, and [op] is not reached. *)
Lemma membership_malformed (op : P → AcceptorClient URL → P * option error) ps w r e :
  url_Parse (string_of_bytes (ReqBody r)) = inl e →
  membership url_Parse op ps w r
  = (ps, Returned (http_Error w (Error e) StatusBadRequest)).
Proof. intros H. unfold membership. by rewrite H. Qed.

End HandlerFacts.

(** * The claims *)

(** C1: an error of the proposer should reach the client as 412 when it
    is a ConflictError and as 500 otherwise, in every handler that calls
    [Propose].  [handleCAS] does so; [handleGet] and [handleDel] do not
    tell a ConflictError from other errors: a get and a delete whose round
    loses against the ballot of a rival proposer are both answered with
    500 (internal error), where the same lost round is answered with 412
    by [handleCAS]. *)
Theorem C1_get_and_del_answer_conflict_with_500 :
  let ps := Reference.fresh [Some Sample.lost] in
  let internal := http_Error NewRecorder (Error Sample.lost) StatusInternalServerError in
  let precondition := http_Error NewRecorder (Error Sample.lost) StatusPreconditionFailed in
  handleGet Reference.proposer ps NewRecorder (Sample.post "foo" [])
    = (Reference.fresh [], Returned internal)
  ∧ handleDel Reference.proposer ps NewRecorder (Sample.post "foo" Sample.bar)
    = (Reference.fresh [], Returned internal)
  ∧ handleCAS Reference.proposer ps NewRecorder
      (Sample.post "foo" (Sample.cas_body [] Sample.bar))
    = (Reference.fresh [], Returned precondition)
  ∧ Code internal = 500 ∧ Code precondition = 412.
Proof. repeat split; reflexivity. Qed.

(** C2, as stated, fails: a request that carries the pair (expect, set) as
    expect, separator, set is cut at the first separator of its body, and
    when expect ends in a line feed that separator begins inside expect.
    For expect = "a" and a line feed, set = "b", the function the handler
    passes to [Propose] is the swap of "a" for a line feed and "b": on a
    base state equal to expect it returns expect, not set. *)
Lemma C2_counterexample :
  ReqBody (Sample.post "foo" (Sample.cas_body Sample.a_line Sample.letter_b))
    = Sample.a_line ++ separator ++ Sample.letter_b
  ∧ (handleCAS (Spy.spy Reference.proposer) (Sample.holding_a_line, []) NewRecorder
       (Sample.post "foo" (Sample.cas_body Sample.a_line Sample.letter_b))).1.2
    = [Spy.CallPropose "foo" (handleCAS_cas Sample.letter_a Sample.line_b)]
  ∧ ¬ (∀ x, x = Sample.a_line →
            handleCAS_cas Sample.letter_a Sample.line_b x = Sample.letter_b)
  ∧ (handleCAS Reference.proposer Sample.holding_a_line NewRecorder
       (Sample.post "foo" (Sample.cas_body Sample.a_line Sample.letter_b))).2
    = Returned (ok_reply {| Counter := 2; ID := 1 |} Sample.a_line).
Proof.
  split; [reflexivity|]. split; [reflexivity|]. split; [|reflexivity].
  intros H. specialize (H Sample.a_line eq_refl). discriminate H.
Qed.

(** C2, amended: for a CAS request whose body is expect, the separator
    and set, where no separator begins inside expect (expect holds no
    empty line and does not end in a line feed), the update function the
    handler builds returns set on a base state equal to expect and returns
    every other base state unchanged; this function is what the handler
    passes to [Propose], whatever the round's outcome, and when the round
    succeeds the handler answers 200 with the state [Propose] returned as
    the body and the installed ballot in the headers. *)
Theorem C2_handleCAS_swap_on_body {P URL : Type} (proposer : Proposer P URL)
    (ps : P) (log : list (Spy.call URL)) (r : Request) (expect set : bytes) :
  ReqBody r = expect ++ separator ++ set →
  ¬ occurs_in separator (expect ++ [x0a]) →
  let cas := handleCAS_cas expect set in
  (∀ x, x = expect → cas x = set) ∧
  (∀ x, x ≠ expect → cas x = x) ∧
  (handleCAS (Spy.spy proposer) (ps, log) NewRecorder r).1.2
    = log ++ [Spy.CallPropose (Vars_key r) cas] ∧
  (∀ ps' state b,
     Propose proposer ps (Vars_key r) cas = (ps', (state, b, None)) →
     handleCAS (Spy.spy proposer) (ps, log) NewRecorder r
     = ((ps', log ++ [Spy.CallPropose (Vars_key r) cas]), Returned (ok_reply b state))
     ∧ Code (ok_reply b state) = 200
     ∧ Body (ok_reply b state) = state
     ∧ HeaderMap (ok_reply b state) = setBallot ∅ b).
Proof.
  intros Hb Hno cas. pose proof (carries_of_body _ _ _ Hb Hno) as Hc.
  split; [|split; [|split]].
  - intros x ->. unfold cas, handleCAS_cas. by rewrite bytes_Equal_refl.
  - intros x Hx. unfold cas, handleCAS_cas.
    apply bytes_Equal_false in Hx. by rewrite Hx.
  - destruct (Propose proposer ps (Vars_key r) cas) as [ps' [[state b] [e|]]] eqn:H.
    + by rewrite (handleCAS_error (Spy.spy proposer) _ _ _ _ _ _ _ _ Hc
                    (spy_Propose proposer _ log _ _ _ _ H)).
    + by rewrite (handleCAS_ok (Spy.spy proposer) _ _ _ _ _ _ _ Hc
                    (spy_Propose proposer _ log _ _ _ _ H)).
  - intros ps' state b H. split; [|done].
    apply (handleCAS_ok (Spy.spy proposer) _ _ expect set); [done|].
    by apply spy_Propose.
Qed.

Lemma C2_witness :
  ReqBody (Sample.post "foo" (Sample.cas_body Sample.bar Sample.baz))
    = Sample.bar ++ separator ++ Sample.baz
  ∧ ¬ occurs_in separator (Sample.bar ++ [x0a])
  ∧ handleCAS (Spy.spy Reference.proposer) (Sample.holding_bar, []) NewRecorder
      (Sample.post "foo" (Sample.cas_body Sample.bar Sample.baz))
    = (((Reference.propose Sample.holding_bar "foo" (handleCAS_cas Sample.bar Sample.baz)).1,
        [Spy.CallPropose "foo" (handleCAS_cas Sample.bar Sample.baz)]),
       Returned (ok_reply {| Counter := 2; ID := 1 |} Sample.baz)).
Proof.
  assert (ReqBody (Sample.post "foo" (Sample.cas_body Sample.bar Sample.baz))
          = Sample.bar ++ separator ++ Sample.baz) as Hb by reflexivity.
  assert (¬ occurs_in separator (Sample.bar ++ [x0a])) as Hno.
  { intros (a & b & Hab).
    apply (proj1 (bytes_Index_absent (Sample.bar ++ [x0a]) separator)) with a b; [|exact Hab].
    vm_compute. reflexivity. }
  split; [exact Hb|]. split; [exact Hno|].
  apply (C2_handleCAS_swap_on_body Reference.proposer Sample.holding_bar [] _ _ _ Hb Hno).
  reflexivity.
Defined.

(** C3: when the round of a delete succeeds, the handler compares the
    state [Propose] returned with the empty target: if they differ it
    answers 412 with the fixed text "conflict" (as [http.Error] writes it,
    a line of its own), not with the text of any error; if they are equal
    it answers 200 with the empty state and the installed ballot. *)
Theorem C3_handleDel_checks_returned_state {P URL : Type} (proposer : Proposer P URL)
    (ps ps' : P) (r : Request) (state : bytes) (b : Ballot) :
  Propose proposer ps (Vars_key r) (handleDel_cas (ReqBody r) []) = (ps', (state, b, None)) →
  let conflict := http_Error NewRecorder "conflict" StatusPreconditionFailed in
  (state ≠ [] → handleDel proposer ps NewRecorder r = (ps', Returned conflict))
  ∧ Code conflict = 412
  ∧ Body conflict = line "conflict"
  ∧ (state = [] →
     handleDel proposer ps NewRecorder r = (ps', Returned (ok_reply b []))
     ∧ Code (ok_reply b []) = 200
     ∧ Body (ok_reply b []) = []
     ∧ HeaderMap (ok_reply b []) = setBallot ∅ b).
Proof.
  intros H conflict. pose proof (handleDel_ok proposer _ _ _ _ _ H) as Hd.
  split; [|split; [done|split; [done|]]].
  - intros Hs. rewrite Hd. apply bytes_Equal_false in Hs. by rewrite Hs.
  - by intros ->.
Qed.

Lemma C3_witness :
  Propose Reference.proposer Sample.holding_bar "foo" (handleDel_cas Sample.stale [])
    = ((Reference.propose Sample.holding_bar "foo" (handleDel_cas Sample.stale [])).1,
       (Sample.bar, {| Counter := 2; ID := 1 |}, None))
  ∧ handleDel Reference.proposer Sample.holding_bar NewRecorder (Sample.post "foo" Sample.stale)
    = ((Reference.propose Sample.holding_bar "foo" (handleDel_cas Sample.stale [])).1,
       Returned (http_Error NewRecorder "conflict" StatusPreconditionFailed)).
Proof.
  assert (Propose Reference.proposer Sample.holding_bar "foo" (handleDel_cas Sample.stale [])
          = ((Reference.propose Sample.holding_bar "foo" (handleDel_cas Sample.stale [])).1,
             (Sample.bar, {| Counter := 2; ID := 1 |}, None))) as H by reflexivity.
  split; [exact H|].
  apply (C3_handleDel_checks_returned_state Reference.proposer _ _
           (Sample.post "foo" Sample.stale) _ _ H).
  discriminate.
Defined.

(** C4: a CAS request whose body holds no separator should still be
    served without a panic.  It is not: the split of such a body yields
    one group, fewer than two, and the access [groups[1]] is out of range,
    so the handler panics before it calls the proposer.  Here the body is
    "bar". *)
Theorem C4_handleCAS_panics_without_separator :
  bytes_Index Sample.bar separator = -1
  ∧ bytes_SplitN Sample.bar separator 2 = [Sample.bar]
  ∧ handleCAS Reference.proposer (Reference.fresh []) NewRecorder (Sample.post "foo" Sample.bar)
    = (Reference.fresh [], Panicked 1 1).
Proof. repeat split; reflexivity. Qed.

(** C5: when the body of a membership request is a replica descriptor
    that [url.Parse] rejects, each of the four membership handlers answers
    400 and returns without a call to the proposer: the proposer's state
    and the log of calls made through the interface are as before. *)
Theorem C5_membership_rejects_malformed_descriptor {P URL : Type}
    (url_Parse : string → error + URL) (proposer : Proposer P URL)
    (ps : P) (log : list (Spy.call URL)) (r : Request) (e : error) :
  url_Parse (string_of_bytes (ReqBody r)) = inl e →
  let rejected := http_Error NewRecorder (Error e) StatusBadRequest in
  handleAddAccepter url_Parse (Spy.spy proposer) (ps, log) NewRecorder r
    = ((ps, log), Returned rejected)
  ∧ handleAddPreparer url_Parse (Spy.spy proposer) (ps, log) NewRecorder r
    = ((ps, log), Returned rejected)
  ∧ handleRemovePreparer url_Parse (Spy.spy proposer) (ps, log) NewRecorder r
    = ((ps, log), Returned rejected)
  ∧ handleRemoveAccepter url_Parse (Spy.spy proposer) (ps, log) NewRecorder r
    = ((ps, log), Returned rejected)
  ∧ Code rejected = 400.
Proof.
  intros H rejected.
  repeat split; by apply membership_malformed.
Qed.

Lemma C5_witness :
  Reference.url_Parse (string_of_bytes (ReqBody (Sample.post "" Sample.malformed)))
    = inl (OtherError "net/url: invalid control character in URL")
  ∧ handleAddAccepter Reference.url_Parse (Spy.spy Reference.proposer)
      (Reference.fresh [], []) NewRecorder (Sample.post "" Sample.malformed)
    = ((Reference.fresh [], []),
       Returned (http_Error NewRecorder "net/url: invalid control character in URL"
                   StatusBadRequest)).
Proof.
  assert (Reference.url_Parse (string_of_bytes (ReqBody (Sample.post "" Sample.malformed)))
          = inl (OtherError "net/url: invalid control character in URL")) as H
    by reflexivity.
  split; [exact H|].
  apply (C5_membership_rejects_malformed_descriptor Reference.url_Parse Reference.proposer
           (Reference.fresh []) [] _ _ H).
Defined.

(** C6: the function the get handler passes to [Propose] is the identity,
    so when the round succeeds on the register's current value the handler
    answers 200 with that very value as the body and the installed ballot
    in the headers. *)
Theorem C6_handleGet_reads_current_value {P URL : Type} (proposer : Proposer P URL)
    (ps ps' : P) (log : list (Spy.call URL)) (r : Request) (current : bytes) (b : Ballot) :
  round_succeeds proposer ps (Vars_key r) handleGet_read current b ps' →
  (∀ x, handleGet_read x = x)
  ∧ handleGet (Spy.spy proposer) (ps, log) NewRecorder r
    = ((ps', log ++ [Spy.CallPropose (Vars_key r) handleGet_read]),
       Returned (ok_reply b current))
  ∧ Code (ok_reply b current) = 200
  ∧ Body (ok_reply b current) = current
  ∧ HeaderMap (ok_reply b current) = setBallot ∅ b.
Proof.
  unfold round_succeeds. intros H.
  split; [done|]. split; [|done].
  apply handleGet_ok. by apply spy_Propose.
Qed.

Lemma C6_witness :
  round_succeeds Reference.proposer Sample.holding_bar "foo" handleGet_read Sample.bar
    {| Counter := 2; ID := 1 |}
    (Reference.propose Sample.holding_bar "foo" handleGet_read).1
  ∧ (Reference.held Sample.holding_bar "foo").2 = Sample.bar
  ∧ (Reference.held (Reference.propose Sample.holding_bar "foo" handleGet_read).1 "foo").2
    = Sample.bar
  ∧ handleGet (Spy.spy Reference.proposer) (Sample.holding_bar, []) NewRecorder
      (Sample.post "foo" [])
    = (((Reference.propose Sample.holding_bar "foo" handleGet_read).1,
        [Spy.CallPropose "foo" handleGet_read]),
       Returned (ok_reply {| Counter := 2; ID := 1 |} Sample.bar)).
Proof.
  assert (round_succeeds Reference.proposer Sample.holding_bar "foo" handleGet_read Sample.bar
            {| Counter := 2; ID := 1 |}
            (Reference.propose Sample.holding_bar "foo" handleGet_read).1) as H
    by reflexivity.
  split; [exact H|]. split; [reflexivity|]. split; [reflexivity|].
  apply (C6_handleGet_reads_current_value Reference.proposer _ _ []
           (Sample.post "foo" []) _ _ H).
Defined.

(** C7: the update function the delete handler builds from the expected
    value in the request body returns the empty state on a base state
    equal to the expected value and returns every other base state
    unchanged; this function is what the handler passes to [Propose]. *)
Theorem C7_handleDel_conditional_delete {P URL : Type} (proposer : Proposer P URL)
    (ps : P) (log : list (Spy.call URL)) (r : Request) :
  let cas := handleDel_cas (ReqBody r) [] in
  (∀ x, x = ReqBody r → cas x = [])
  ∧ (∀ x, x ≠ ReqBody r → cas x = x)
  ∧ (handleDel (Spy.spy proposer) (ps, log) NewRecorder r).1.2
    = log ++ [Spy.CallPropose (Vars_key r) cas].
Proof.
  intros cas. split; [|split].
  - intros x ->. unfold cas, handleDel_cas. by rewrite bytes_Equal_refl.
  - intros x Hx. unfold cas, handleDel_cas.
    apply bytes_Equal_false in Hx. by rewrite Hx.
  - destruct (Propose proposer ps (Vars_key r) cas) as [ps' [[state b] err]] eqn:H.
    destruct err as [e|].
    + by rewrite (handleDel_error (Spy.spy proposer) _ _ _ _ _ _
                    (spy_Propose proposer _ log _ _ _ _ H)).
    + by rewrite (handleDel_ok (Spy.spy proposer) _ _ _ _ _
                    (spy_Propose proposer _ log _ _ _ _ H)).
Qed.

(** C8: the fast-forward-increment handler passes to the proposer the
    tombstone it decodes from the request headers, which is the ballot the
    client encoded there; when the proposer succeeds the handler answers
    200 with the body "OK" and the returned Age encoded in the response
    headers, from which the client reads it back: Ballot and Age travel as
    (counter, proposerID) pairs in headers, the body does not carry
    them. *)
Theorem C8_handleFastForwardIncrement_headers {P URL : Type} (proposer : Proposer P URL)
    (ps ps' : P) (log : list (Spy.call URL)) (r : Request) (age : Age) :
  FastForwardIncrement proposer ps (Vars_key r) (getBallot (ReqHeader r)) = (ps', (age, None)) →
  let reply := {| Code := StatusOK; wroteHeader := true;
                  HeaderMap := setAge ∅ age; Body := line "OK" |} in
  handleFastForwardIncrement (Spy.spy proposer) (ps, log) NewRecorder r
    = ((ps', log ++ [Spy.CallFastForwardIncrement (Vars_key r) (getBallot (ReqHeader r))]),
       Returned reply)
  ∧ getAge (HeaderMap reply) = age
  ∧ (∀ h t, ReqHeader r = setBallot h t → getBallot (ReqHeader r) = t).
Proof.
  intros H reply. split; [|split].
  - apply handleFastForwardIncrement_ok. by apply spy_FastForwardIncrement.
  - apply getAge_setAge.
  - intros h t ->. apply getBallot_setBallot.
Qed.

Lemma C8_witness :
  FastForwardIncrement Reference.proposer Sample.holding_bar "foo"
    (getBallot (ReqHeader (Sample.fast_forward "foo" Sample.tombstone)))
    = ((Reference.fastForwardIncrement Sample.holding_bar "foo" Sample.tombstone).1,
       ({| Counter := 101; ID := 1 |}, None))
  ∧ handleFastForwardIncrement (Spy.spy Reference.proposer) (Sample.holding_bar, [])
      NewRecorder (Sample.fast_forward "foo" Sample.tombstone)
    = (((Reference.fastForwardIncrement Sample.holding_bar "foo" Sample.tombstone).1,
        [Spy.CallFastForwardIncrement "foo" Sample.tombstone]),
       Returned {| Code := StatusOK; wroteHeader := true;
                   HeaderMap := setAge ∅ {| Counter := 101; ID := 1 |};
                   Body := line "OK" |}).
Proof.
  assert (FastForwardIncrement Reference.proposer Sample.holding_bar "foo"
            (getBallot (ReqHeader (Sample.fast_forward "foo" Sample.tombstone)))
          = ((Reference.fastForwardIncrement Sample.holding_bar "foo" Sample.tombstone).1,
             ({| Counter := 101; ID := 1 |}, None))) as H by reflexivity.
  split; [exact H|].
  apply (C8_handleFastForwardIncrement_headers Reference.proposer _ _ []
           (Sample.fast_forward "foo" Sample.tombstone) _ H).
Defined.

(** C9: a delete whose round succeeds on a register that already holds
    the empty state is answered 200 with an empty body, whatever expected
    value the request carries: the update function returns the empty state
    both when the expected value is empty and when it is not, and the
    check after the round only looks at the returned state. *)
Theorem C9_handleDel_on_empty_register {P URL : Type} (proposer : Proposer P URL)
    (ps ps' : P) (r : Request) (b : Ballot) :
  round_succeeds proposer ps (Vars_key r) (handleDel_cas (ReqBody r) []) [] b ps' →
  handleDel proposer ps NewRecorder r = (ps', Returned (ok_reply b []))
  ∧ Code (ok_reply b []) = 200
  ∧ Body (ok_reply b []) = [].
Proof.
  unfold round_succeeds. intros H.
  assert (handleDel_cas (ReqBody r) [] [] = []) as Hcas.
  { unfold handleDel_cas. by destruct (bytes_Equal [] (ReqBody r)). }
  rewrite Hcas in H. split; [|done].
  by rewrite (handleDel_ok proposer _ _ _ _ _ H).
Qed.

Lemma C9_witness :
  round_succeeds Reference.proposer (Reference.fresh []) "foo"
    (handleDel_cas Sample.stale []) [] {| Counter := 1; ID := 1 |}
    (Reference.propose (Reference.fresh []) "foo" (handleDel_cas Sample.stale [])).1
  ∧ handleDel Reference.proposer (Reference.fresh []) NewRecorder
      (Sample.post "foo" Sample.stale)
    = ((Reference.propose (Reference.fresh []) "foo" (handleDel_cas Sample.stale [])).1,
       Returned (ok_reply {| Counter := 1; ID := 1 |} [])).
Proof.
  assert (round_succeeds Reference.proposer (Reference.fresh []) "foo"
            (handleDel_cas Sample.stale []) [] {| Counter := 1; ID := 1 |}
            (Reference.propose (Reference.fresh []) "foo" (handleDel_cas Sample.stale [])).1)
    as H by reflexivity.
  split; [exact H|].
  apply (C9_handleDel_on_empty_register Reference.proposer _ _
           (Sample.post "foo" Sample.stale) _ H).
Defined.

(** C10: the update functions of the CAS handler and of the delete
    handler are idempotent, for every expected value, replacement and
    state; and when the expected value and the replacement are the same
    they are the identity. *)
Theorem C10_conditional_updates_idempotent (curr next x : bytes) :
  handleCAS_cas curr next (handleCAS_cas curr next x) = handleCAS_cas curr next x
  ∧ handleDel_cas curr next (handleDel_cas curr next x) = handleDel_cas curr next x
  ∧ handleCAS_cas curr curr x = x
  ∧ handleDel_cas curr curr x = x.
Proof.
  unfold handleCAS_cas, handleDel_cas.
  destruct (bytes_Equal x curr) eqn:Hx.
  - apply bytes_Equal_true in Hx as ->.
    by destruct (bytes_Equal next curr).
  - by rewrite Hx.
Qed.


(** * Further properties of the handlers *)

Lemma spy_FullIdentityRead {P URL : Type} (proposer : Proposer P URL) ps log key ps' res :
  FullIdentityRead proposer ps key = (ps', res) →
  FullIdentityRead (Spy.spy proposer) (ps, log) key
  = ((ps', log ++ [Spy.CallFullIdentityRead key]), res).
Proof. intros H. cbn. unfold Spy.logged. cbn. by rewrite H. Qed.

(** X1.  The CAS handler returns a reply exactly when the request body holds
    the separator; on every other body, the empty one included, it panics
    on [groups[1]] with one group at hand, the proposer not called. *)
Theorem handleCAS_returns_iff_separator {P URL : Type} (proposer : Proposer P URL)
    (ps : P) (log : list (Spy.call URL)) (w : ResponseWriter) (r : Request) :
  (occurs_in separator (ReqBody r)
   ↔ ∃ w', (handleCAS (Spy.spy proposer) (ps, log) w r).2 = Returned w')
  ∧ (¬ occurs_in separator (ReqBody r)
     ↔ handleCAS (Spy.spy proposer) (ps, log) w r = ((ps, log), Panicked 1 1)).
Proof.
  destruct (bytes_SplitN_groups (ReqBody r)) as [[Hm Hs]|(curr & next & Hs & Hb)].
  - assert (¬ occurs_in separator (ReqBody r)) as Hno.
    { intros (a & b & Hab). by apply (proj1 (bytes_Index_absent _ _) Hm a b). }
    assert (handleCAS (Spy.spy proposer) (ps, log) w r = ((ps, log), Panicked 1 1)) as Hp.
    { unfold handleCAS. by rewrite Hs. }
    split; split; try done.
    rewrite Hp. by intros [w' Hw'].
  - assert (occurs_in separator (ReqBody r)) as Hyes by (by exists curr, next).
    assert (∃ w', (handleCAS (Spy.spy proposer) (ps, log) w r).2 = Returned w') as Hr.
    { unfold handleCAS. rewrite Hs. cbn [lookup list_lookup].
      destruct (Propose (Spy.spy proposer) (ps, log) (Vars_key r) (handleCAS_cas curr next))
        as [ps' [[state b] [e|]]]; [destruct (is_ConflictError e)|]; by eexists. }
    split; split; try done.
    intros Hp. destruct Hr as [w' Hw']. by rewrite Hp in Hw'.
Qed.

(** X2.  The CAS handler cuts the body at its first separator: the body is
    the expected value, the separator and the replacement, and no
    separator begins inside the expected value, so an expected value never
    holds an empty line nor ends in a line feed. *)
Theorem handleCAS_splits_at_first_separator (r : Request) (curr next : bytes) :
  carries r curr next →
  ReqBody r = curr ++ separator ++ next
  ∧ ¬ occurs_in separator (curr ++ [x0a])
  ∧ ¬ occurs_in separator curr
  ∧ (∀ c, curr ≠ c ++ [x0a]).
Proof.
  intros Hc. pose proof (carries_no_earlier_separator _ _ _ Hc) as Hno.
  split; [by apply carries_cut in Hc as [_ ?]|]. split; [done|]. split.
  - intros (a & b & ->). apply Hno. exists a, (b ++ [x0a]). by rewrite <- !app_assoc.
  - intros c ->. apply Hno. exists c, []. by rewrite <- app_assoc.
Qed.

Lemma handleCAS_splits_at_first_separator_witness :
  carries {| Vars_key := "foo"; ReqHeader := ∅;
             ReqBody := [x0a] ++ separator ++ Sample.bar |} [] ([x0a] ++ Sample.bar)
  ∧ [x0a] ++ separator ++ Sample.bar = [] ++ separator ++ [x0a] ++ Sample.bar.
Proof.
  assert (carries {| Vars_key := "foo"; ReqHeader := ∅;
                     ReqBody := [x0a] ++ separator ++ Sample.bar |} [] ([x0a] ++ Sample.bar))
    as Hc by reflexivity.
  split; [exact Hc|].
  exact (proj1 (handleCAS_splits_at_first_separator _ _ _ Hc)).
Defined.

(** X3.  A body written as the expected value, the separator and the
    replacement is read back as that pair exactly when no separator begins
    inside the expected value; the replacement may hold anything, further
    separators included. *)
Theorem handleCAS_reads_back_cas_body (key : string) (h : gmap string (list string))
    (expect set : bytes) :
  carries {| Vars_key := key; ReqHeader := h; ReqBody := expect ++ separator ++ set |}
          expect set
  ↔ ¬ occurs_in separator (expect ++ [x0a]).
Proof.
  split; [apply carries_no_earlier_separator|].
  intros Hno. apply carries_of_first, bytes_Index_first.
  intros i Hi.
  destruct (bytes_HasPrefix (drop i (expect ++ separator ++ set)) separator) eqn:Hp; [|done].
  destruct Hno. by apply (separator_begins_inside expect set i).
Qed.

(** X4.  A CAS whose round succeeds is answered 200 whether or not the expected
    value matched: on a match the body is the replacement, on a mismatch
    it is the register's unchanged state, and nothing in the reply tells
    the two apart. *)
Theorem handleCAS_mismatch_is_not_reported {P URL : Type} (proposer : Proposer P URL)
    (ps ps' : P) (r : Request) (expect set base : bytes) (b : Ballot) :
  carries r expect set →
  round_succeeds proposer ps (Vars_key r) (handleCAS_cas expect set) base b ps' →
  (base = expect → handleCAS proposer ps NewRecorder r = (ps', Returned (ok_reply b set)))
  ∧ (base ≠ expect → handleCAS proposer ps NewRecorder r = (ps', Returned (ok_reply b base))).
Proof.
  unfold round_succeeds. intros Hc H.
  rewrite (handleCAS_ok proposer _ _ _ _ _ _ _ Hc H). unfold handleCAS_cas. split.
  - intros ->. by rewrite bytes_Equal_refl.
  - intros Hne. apply bytes_Equal_false in Hne. by rewrite Hne.
Qed.

Lemma handleCAS_mismatch_is_not_reported_witness :
  carries (Sample.post "foo" (Sample.cas_body Sample.stale Sample.baz)) Sample.stale Sample.baz
  ∧ round_succeeds Reference.proposer Sample.holding_bar "foo"
      (handleCAS_cas Sample.stale Sample.baz) Sample.bar {| Counter := 2; ID := 1 |}
      (Reference.propose Sample.holding_bar "foo" (handleCAS_cas Sample.stale Sample.baz)).1
  ∧ handleCAS Reference.proposer Sample.holding_bar NewRecorder
      (Sample.post "foo" (Sample.cas_body Sample.stale Sample.baz))
    = ((Reference.propose Sample.holding_bar "foo" (handleCAS_cas Sample.stale Sample.baz)).1,
       Returned (ok_reply {| Counter := 2; ID := 1 |} Sample.bar)).
Proof.
  assert (carries (Sample.post "foo" (Sample.cas_body Sample.stale Sample.baz))
            Sample.stale Sample.baz) as Hc by reflexivity.
  assert (round_succeeds Reference.proposer Sample.holding_bar "foo"
            (handleCAS_cas Sample.stale Sample.baz) Sample.bar {| Counter := 2; ID := 1 |}
            (Reference.propose Sample.holding_bar "foo"
               (handleCAS_cas Sample.stale Sample.baz)).1) as H by reflexivity.
  split; [exact Hc|]. split; [exact H|].
  apply (handleCAS_mismatch_is_not_reported Reference.proposer _ _ _ _ _ _ _ Hc H).
  discriminate.
Defined.

(** X5.  A delete whose round succeeds is answered 200 with an empty body
    exactly when the register held the expected value or was already
    empty; when it held anything else the answer is 412 "conflict", and
    that reply carries no ballot although the round went through. *)
Theorem handleDel_round_outcome {P URL : Type} (proposer : Proposer P URL)
    (ps ps' : P) (r : Request) (base : bytes) (b : Ballot) :
  round_succeeds proposer ps (Vars_key r) (handleDel_cas (ReqBody r) []) base b ps' →
  (base = ReqBody r ∨ base = [] →
   handleDel proposer ps NewRecorder r = (ps', Returned (ok_reply b [])))
  ∧ (base ≠ ReqBody r → base ≠ [] →
     handleDel proposer ps NewRecorder r
     = (ps', Returned (http_Error NewRecorder "conflict" StatusPreconditionFailed))).
Proof.
  unfold round_succeeds. intros H.
  rewrite (handleDel_ok proposer _ _ _ _ _ H). unfold handleDel_cas. split.
  - intros [->| ->].
    + by rewrite bytes_Equal_refl.
    + by destruct (bytes_Equal [] (ReqBody r)).
  - intros Hne Hfull. apply bytes_Equal_false in Hne. rewrite Hne.
    apply bytes_Equal_false in Hfull. by rewrite Hfull.
Qed.

Lemma handleDel_round_outcome_witness :
  round_succeeds Reference.proposer Sample.holding_bar "foo"
    (handleDel_cas (ReqBody (Sample.post "foo" Sample.bar)) []) Sample.bar
    {| Counter := 2; ID := 1 |}
    (Reference.propose Sample.holding_bar "foo" (handleDel_cas Sample.bar [])).1
  ∧ handleDel Reference.proposer Sample.holding_bar NewRecorder (Sample.post "foo" Sample.bar)
    = ((Reference.propose Sample.holding_bar "foo" (handleDel_cas Sample.bar [])).1,
       Returned (ok_reply {| Counter := 2; ID := 1 |} [])).
Proof.
  assert (round_succeeds Reference.proposer Sample.holding_bar "foo"
            (handleDel_cas (ReqBody (Sample.post "foo" Sample.bar)) []) Sample.bar
            {| Counter := 2; ID := 1 |}
            (Reference.propose Sample.holding_bar "foo" (handleDel_cas Sample.bar [])).1)
    as H by reflexivity.
  split; [exact H|].
  apply (handleDel_round_outcome Reference.proposer _ _ (Sample.post "foo" Sample.bar) _ _ H).
  by left.
Defined.

(** X6.  Whatever the proposer returns, a delete that is answered 200 has an
    empty body. *)
Theorem handleDel_success_body_is_empty {P URL : Type} (proposer : Proposer P URL)
    (ps ps' : P) (r : Request) (w : ResponseWriter) :
  handleDel proposer ps NewRecorder r = (ps', Returned w) →
  Code w = 200 →
  Body w = [].
Proof.
  destruct (Propose proposer ps (Vars_key r) (handleDel_cas (ReqBody r) []))
    as [ps1 [[state b] [e|]]] eqn:H.
  - rewrite (handleDel_error proposer _ _ _ _ _ _ H). by intros [= _ <-].
  - rewrite (handleDel_ok proposer _ _ _ _ _ H).
    destruct (bytes_Equal state []) eqn:Hs.
    + apply bytes_Equal_true in Hs as ->. by intros [= _ <-].
    + by intros [= _ <-].
Qed.

Lemma handleDel_success_body_is_empty_witness :
  handleDel Reference.proposer Sample.holding_bar NewRecorder (Sample.post "foo" Sample.bar)
    = ((Reference.propose Sample.holding_bar "foo" (handleDel_cas Sample.bar [])).1,
       Returned (ok_reply {| Counter := 2; ID := 1 |} []))
  ∧ Code (ok_reply {| Counter := 2; ID := 1 |} []) = 200
  ∧ Body (ok_reply {| Counter := 2; ID := 1 |} []) = [].
Proof.
  assert (handleDel Reference.proposer Sample.holding_bar NewRecorder
            (Sample.post "foo" Sample.bar)
          = ((Reference.propose Sample.holding_bar "foo" (handleDel_cas Sample.bar [])).1,
             Returned (ok_reply {| Counter := 2; ID := 1 |} []))) as H by reflexivity.
  assert (Code (ok_reply {| Counter := 2; ID := 1 |} []) = 200) as Hc by reflexivity.
  split; [exact H|]. split; [exact Hc|].
  exact (handleDel_success_body_is_empty Reference.proposer _ _ _ _ H Hc).
Defined.

(** X7.  On a descriptor that [url.Parse] accepts, each membership handler
    calls the proposer method of its own name, once, with the client for
    the parsed URL, and answers from what the method returns: 200 with the
    line "OK" for a nil error, 500 with the error's text otherwise. *)
Theorem membership_calls_its_own_method {P URL : Type}
    (url_Parse : string → error + URL) (proposer : Proposer P URL)
    (ps : P) (log : list (Spy.call URL)) (r : Request) (u : URL) :
  url_Parse (string_of_bytes (ReqBody r)) = inr u →
  let target := Build_AcceptorClient u in
  handleAddAccepter url_Parse (Spy.spy proposer) (ps, log) NewRecorder r
    = (((AddAccepter proposer ps target).1, log ++ [Spy.CallAddAccepter target]),
       Returned (membership_reply (AddAccepter proposer ps target).2))
  ∧ handleAddPreparer url_Parse (Spy.spy proposer) (ps, log) NewRecorder r
    = (((AddPreparer proposer ps target).1, log ++ [Spy.CallAddPreparer target]),
       Returned (membership_reply (AddPreparer proposer ps target).2))
  ∧ handleRemovePreparer url_Parse (Spy.spy proposer) (ps, log) NewRecorder r
    = (((RemovePreparer proposer ps target).1, log ++ [Spy.CallRemovePreparer target]),
       Returned (membership_reply (RemovePreparer proposer ps target).2))
  ∧ handleRemoveAccepter url_Parse (Spy.spy proposer) (ps, log) NewRecorder r
    = (((RemoveAccepter proposer ps target).1, log ++ [Spy.CallRemoveAccepter target]),
       Returned (membership_reply (RemoveAccepter proposer ps target).2))
  ∧ Code (membership_reply None) = 200
  ∧ Body (membership_reply None) = line "OK"
  ∧ (∀ e, Code (membership_reply (Some e)) = 500
          ∧ Body (membership_reply (Some e)) = line (Error e)).
Proof.
  intros Hu target.
  unfold handleAddAccepter, handleAddPreparer, handleRemovePreparer, handleRemoveAccepter,
    membership.
  rewrite Hu. cbn [AddAccepter AddPreparer RemovePreparer RemoveAccepter Spy.spy].
  unfold Spy.logged. cbn [fst snd]. fold target.
  destruct (AddAccepter proposer ps target) as [? [?|]];
    destruct (AddPreparer proposer ps target) as [? [?|]];
    destruct (RemovePreparer proposer ps target) as [? [?|]];
    destruct (RemoveAccepter proposer ps target) as [? [?|]];
    repeat split.
Qed.

Lemma membership_calls_its_own_method_witness :
  Reference.url_Parse (string_of_bytes (ReqBody (Sample.post "" Sample.replica)))
    = inr "http://replica:8080"%string
  ∧ handleAddPreparer Reference.url_Parse (Spy.spy Reference.proposer)
      (Reference.fresh [], []) NewRecorder (Sample.post "" Sample.replica)
    = (((Reference.addPreparer (Reference.fresh []) (Build_AcceptorClient "http://replica:8080"%string)).1,
        [Spy.CallAddPreparer (Build_AcceptorClient "http://replica:8080"%string)]),
       Returned (membership_reply None)).
Proof.
  assert (Reference.url_Parse (string_of_bytes (ReqBody (Sample.post "" Sample.replica)))
          = inr "http://replica:8080"%string) as Hu by reflexivity.
  split; [exact Hu|].
  exact (proj1 (proj2 (membership_calls_its_own_method Reference.url_Parse Reference.proposer
                         (Reference.fresh []) [] _ _ Hu))).
Defined.

(** X8.  An error of the proposer that is not a ConflictError is answered with
    500 and the error's text on a line, by each of the five handlers that
    take a key. *)
Theorem errors_other_than_conflict_are_internal {P URL : Type} (proposer : Proposer P URL)
    (ps ps' : P) (r : Request) (e : error) :
  is_ConflictError e = false →
  let internal := http_Error NewRecorder (Error e) StatusInternalServerError in
  (∀ state b,
     Propose proposer ps (Vars_key r) handleGet_read = (ps', (state, b, Some e)) →
     handleGet proposer ps NewRecorder r = (ps', Returned internal))
  ∧ (∀ expect set state b,
       carries r expect set →
       Propose proposer ps (Vars_key r) (handleCAS_cas expect set) = (ps', (state, b, Some e)) →
       handleCAS proposer ps NewRecorder r = (ps', Returned internal))
  ∧ (∀ state b,
       Propose proposer ps (Vars_key r) (handleDel_cas (ReqBody r) []) = (ps', (state, b, Some e)) →
       handleDel proposer ps NewRecorder r = (ps', Returned internal))
  ∧ (∀ state,
       FullIdentityRead proposer ps (Vars_key r) = (ps', (state, Some e)) →
       handleFullIdentityRead proposer ps NewRecorder r = (ps', Returned internal))
  ∧ (∀ age,
       FastForwardIncrement proposer ps (Vars_key r) (getBallot (ReqHeader r))
         = (ps', (age, Some e)) →
       handleFastForwardIncrement proposer ps NewRecorder r = (ps', Returned internal))
  ∧ Code internal = 500
  ∧ Body internal = line (Error e).
Proof.
  intros He internal. repeat split.
  - intros state b. apply handleGet_error.
  - intros expect set state b Hc H.
    rewrite (handleCAS_error proposer _ _ _ _ _ _ _ _ Hc H). by rewrite He.
  - intros state b. apply handleDel_error.
  - intros state. apply handleFullIdentityRead_error.
  - intros age. apply handleFastForwardIncrement_error.
Qed.

Lemma errors_other_than_conflict_are_internal_witness :
  is_ConflictError Sample.quorum = false
  ∧ handleCAS Reference.proposer (Reference.fresh [Some Sample.quorum]) NewRecorder
      (Sample.post "foo" (Sample.cas_body [] Sample.bar))
    = (Reference.fresh [],
       Returned (http_Error NewRecorder "not enough replicas responded"
                   StatusInternalServerError)).
Proof.
  assert (is_ConflictError Sample.quorum = false) as He by reflexivity.
  split; [exact He|].
  apply (proj1 (proj2 (errors_other_than_conflict_are_internal Reference.proposer
                         (Reference.fresh [Some Sample.quorum]) (Reference.fresh [])
                         (Sample.post "foo" (Sample.cas_body [] Sample.bar)) _ He))
           [] Sample.bar [] Reference.zeroBallot);
    reflexivity.
Defined.

(** X9.  A CAS whose round loses against a higher ballot is answered 412 with
    the conflict's text on a line; the reply carries no ballot. *)
Theorem handleCAS_conflict_is_precondition_failed {P URL : Type} (proposer : Proposer P URL)
    (ps ps' : P) (r : Request) (expect set state : bytes) (b observed : Ballot)
    (text : string) :
  carries r expect set →
  Propose proposer ps (Vars_key r) (handleCAS_cas expect set)
    = (ps', (state, b, Some (ConflictError observed text))) →
  let failed := http_Error NewRecorder text StatusPreconditionFailed in
  handleCAS proposer ps NewRecorder r = (ps', Returned failed)
  ∧ Code failed = 412
  ∧ Body failed = line text.
Proof.
  intros Hc H failed. split; [|done].
  by rewrite (handleCAS_error proposer _ _ _ _ _ _ _ _ Hc H).
Qed.

Lemma handleCAS_conflict_is_precondition_failed_witness :
  carries (Sample.post "foo" (Sample.cas_body [] Sample.bar)) [] Sample.bar
  ∧ Propose Reference.proposer (Reference.fresh [Some Sample.lost]) "foo"
      (handleCAS_cas [] Sample.bar)
    = (Reference.fresh [],
       ([], Reference.zeroBallot,
        Some (ConflictError Sample.rival "conflict: ballot 9/2 is ahead")))
  ∧ handleCAS Reference.proposer (Reference.fresh [Some Sample.lost]) NewRecorder
      (Sample.post "foo" (Sample.cas_body [] Sample.bar))
    = (Reference.fresh [],
       Returned (http_Error NewRecorder "conflict: ballot 9/2 is ahead"
                   StatusPreconditionFailed)).
Proof.
  assert (carries (Sample.post "foo" (Sample.cas_body [] Sample.bar)) [] Sample.bar) as Hc
    by reflexivity.
  assert (Propose Reference.proposer (Reference.fresh [Some Sample.lost]) "foo"
            (handleCAS_cas [] Sample.bar)
          = (Reference.fresh [],
             ([], Reference.zeroBallot,
              Some (ConflictError Sample.rival "conflict: ballot 9/2 is ahead")))) as H
    by reflexivity.
  split; [exact Hc|]. split; [exact H|].
  exact (proj1 (handleCAS_conflict_is_precondition_failed Reference.proposer _ _ _ _ _ _ _ _ _
                  Hc H)).
Defined.

(** X10.  A full identity read that succeeds is answered 200 with the
    state as the body, and the handler puts no ballot in the reply: unlike
    get, cas and del it never calls [setBallot], so neither ballot header
    is set.  The proposer is called once, with the key of the route. *)
Theorem handleFullIdentityRead_reply_has_no_ballot {P URL : Type} (proposer : Proposer P URL)
    (ps ps' : P) (log : list (Spy.call URL)) (r : Request) (state : bytes) :
  FullIdentityRead proposer ps (Vars_key r) = (ps', (state, None)) →
  ∃ w,
    handleFullIdentityRead (Spy.spy proposer) (ps, log) NewRecorder r
    = ((ps', log ++ [Spy.CallFullIdentityRead (Vars_key r)]), Returned w)
    ∧ Code w = 200
    ∧ Body w = state
    ∧ HeaderMap w !! ballotCounterHeader = None
    ∧ HeaderMap w !! ballotIDHeader = None.
Proof.
  intros H. unfold handleFullIdentityRead.
  rewrite (spy_FullIdentityRead proposer _ log _ _ _ H).
  eexists. split; [reflexivity|]. by repeat split.
Qed.

Lemma handleFullIdentityRead_reply_has_no_ballot_witness :
  FullIdentityRead Reference.proposer Sample.holding_bar "foo"
    = (Sample.holding_bar, (Sample.bar, None))
  ∧ ∃ w,
      handleFullIdentityRead (Spy.spy Reference.proposer) (Sample.holding_bar, []) NewRecorder
        (Sample.post "foo" [])
      = ((Sample.holding_bar, [Spy.CallFullIdentityRead "foo"]), Returned w)
      ∧ Code w = 200
      ∧ Body w = Sample.bar
      ∧ HeaderMap w !! ballotCounterHeader = None
      ∧ HeaderMap w !! ballotIDHeader = None.
Proof.
  assert (FullIdentityRead Reference.proposer Sample.holding_bar "foo"
          = (Sample.holding_bar, (Sample.bar, None))) as H by reflexivity.
  split; [exact H|].
  exact (handleFullIdentityRead_reply_has_no_ballot Reference.proposer _ _ []
           (Sample.post "foo" []) _ H).
Defined.

(** X11.  Every handler but the CAS handler returns a reply on every request,
    and each handler only ever answers with the status codes its source
    names: 200 or 500 for get, full identity read and fast forward; 200,
    412 or 500 for delete and, when it returns, CAS; 200, 400 or 500 for
    the membership handlers. *)
Theorem handlers_status_codes {P URL : Type}
    (url_Parse : string → error + URL) (proposer : Proposer P URL)
    (ps : P) (r : Request) :
  answers [200; 500] (handleGet proposer ps NewRecorder r).2
  ∧ answers [200; 412; 500] (handleDel proposer ps NewRecorder r).2
  ∧ answers [200; 400; 500] (handleAddAccepter url_Parse proposer ps NewRecorder r).2
  ∧ answers [200; 400; 500] (handleAddPreparer url_Parse proposer ps NewRecorder r).2
  ∧ answers [200; 400; 500] (handleRemovePreparer url_Parse proposer ps NewRecorder r).2
  ∧ answers [200; 400; 500] (handleRemoveAccepter url_Parse proposer ps NewRecorder r).2
  ∧ answers [200; 500] (handleFullIdentityRead proposer ps NewRecorder r).2
  ∧ answers [200; 500] (handleFastForwardIncrement proposer ps NewRecorder r).2
  ∧ (∀ w, (handleCAS proposer ps NewRecorder r).2 = Returned w →
          answers [200; 412; 500] (Returned w)).
Proof.
  assert (∀ codes msg code, code ∈ codes →
            answers codes (Returned (http_Error NewRecorder msg code))) as Herr.
  { intros codes msg code Hin. by eexists. }
  assert (∀ codes (f : gmap string (list string) → gmap string (list string)) buf,
            200 ∈ codes →
            answers codes (Returned (Write (with_Header NewRecorder f) buf))) as Hok.
  { intros codes f buf Hin. by eexists. }
  assert (∀ codes, 200 ∈ codes → answers codes (Returned (Fprintln NewRecorder "OK"))) as Hln.
  { intros codes Hin. by eexists. }
  assert (∀ op, answers [200; 400; 500] (membership url_Parse op ps NewRecorder r).2) as Hm.
  { intros op. unfold membership.
    destruct (url_Parse (string_of_bytes (ReqBody r))) as [e|u]; cbn [snd].
    - apply Herr. set_solver.
    - destruct (op ps (Build_AcceptorClient u)) as [ps' [e|]]; cbn [snd].
      + apply Herr. set_solver.
      + apply Hln. set_solver. }
  repeat split; try apply Hm.
  - unfold handleGet.
    destruct (Propose proposer ps (Vars_key r) handleGet_read) as [ps' [[state b] [e|]]];
      cbn [snd]; [apply Herr|apply Hok]; set_solver.
  - unfold handleDel.
    destruct (Propose proposer ps (Vars_key r) (handleDel_cas (ReqBody r) []))
      as [ps' [[state b] [e|]]]; [|destruct (negb (bytes_Equal state []))];
      cbn [snd]; [apply Herr|apply Herr|apply Hok]; set_solver.
  - unfold handleFullIdentityRead.
    destruct (FullIdentityRead proposer ps (Vars_key r)) as [ps' [state [e|]]];
      cbn [snd]; [apply Herr; set_solver|].
    eexists. split; [reflexivity|]. split; [reflexivity|]. cbn. set_solver.
  - unfold handleFastForwardIncrement.
    destruct (FastForwardIncrement proposer ps (Vars_key r) (getBallot (ReqHeader r)))
      as [ps' [age [e|]]]; cbn [snd]; [apply Herr; set_solver|].
    eexists. split; [reflexivity|]. split; [reflexivity|]. cbn. set_solver.
  - intros w. unfold handleCAS.
    destruct (bytes_SplitN (ReqBody r) separator 2 !! 0%nat) as [curr|]; [|done].
    destruct (bytes_SplitN (ReqBody r) separator 2 !! 1%nat) as [next|]; [|done].
    destruct (Propose proposer ps (Vars_key r) (handleCAS_cas curr next))
      as [ps' [[state b] [e|]]]; [destruct (is_ConflictError e)|];
      cbn [snd]; intros [= <-]; [apply Herr|apply Herr|apply Hok]; set_solver.
Qed.

(** Through any handler the log of calls grows by one entry at most. *)
Lemma handlers_log_grows_by_at_most_one {P URL : Type}
    (url_Parse : string → error + URL) (proposer : Proposer P URL)
    (ps : P) (log : list (Spy.call URL)) (r : Request) :
  Forall (λ handler : P * list (Spy.call URL) → ResponseWriter → Request
                      → (P * list (Spy.call URL)) * Served,
            ∃ calls, (handler (ps, log) NewRecorder r).1.2 = log ++ calls
                     ∧ (length calls ≤ 1)%nat)
    [ handleGet (Spy.spy proposer);
      handleCAS (Spy.spy proposer);
      handleDel (Spy.spy proposer);
      handleAddAccepter url_Parse (Spy.spy proposer);
      handleAddPreparer url_Parse (Spy.spy proposer);
      handleRemovePreparer url_Parse (Spy.spy proposer);
      handleRemoveAccepter url_Parse (Spy.spy proposer);
      handleFullIdentityRead (Spy.spy proposer);
      handleFastForwardIncrement (Spy.spy proposer) ].
Proof.
  assert (∀ c : Spy.call URL, ∃ calls, log ++ [c] = log ++ calls ∧ (length calls ≤ 1)%nat)
    as Hone by (intros c; by exists [c]).
  assert (∃ calls : list (Spy.call URL), log = log ++ calls ∧ (length calls ≤ 1)%nat)
    as Hnone by (exists []; split; [by rewrite app_nil_r|simpl; lia]).
  assert (∀ (c : AcceptorClient URL → Spy.call URL) op,
            ∃ calls,
              (membership url_Parse
                 (λ s t, Spy.logged (c t) (λ ps0, op ps0 t) s) (ps, log) NewRecorder r).1.2
              = log ++ calls ∧ (length calls ≤ 1)%nat) as Hm.
  { intros c op. unfold membership, Spy.logged.
    destruct (url_Parse (string_of_bytes (ReqBody r))) as [e|u]; [apply Hnone|].
    cbn [fst snd]. destruct (op ps (Build_AcceptorClient u)) as [ps' [e|]]; (cbn [fst snd]; apply Hone). }
  repeat first [apply Forall_nil_2 | apply Forall_cons_2].
  - unfold handleGet. cbn [Propose Spy.spy]. unfold Spy.logged. cbn [fst snd].
    destruct (Propose proposer ps (Vars_key r) handleGet_read) as [ps' [[state b] [e|]]];
      (cbn [fst snd]; apply Hone).
  - unfold handleCAS.
    destruct (bytes_SplitN (ReqBody r) separator 2 !! 0%nat) as [curr|]; [|apply Hnone].
    destruct (bytes_SplitN (ReqBody r) separator 2 !! 1%nat) as [next|]; [|apply Hnone].
    cbn [Propose Spy.spy]. unfold Spy.logged. cbn [fst snd].
    destruct (Propose proposer ps (Vars_key r) (handleCAS_cas curr next))
      as [ps' [[state b] [e|]]]; [destruct (is_ConflictError e)|]; (cbn [fst snd]; apply Hone).
  - unfold handleDel. cbn [Propose Spy.spy]. unfold Spy.logged. cbn [fst snd].
    destruct (Propose proposer ps (Vars_key r) (handleDel_cas (ReqBody r) []))
      as [ps' [[state b] [e|]]]; [|destruct (negb (bytes_Equal state []))]; (cbn [fst snd]; apply Hone).
  - apply (Hm Spy.CallAddAccepter).
  - apply (Hm Spy.CallAddPreparer).
  - apply (Hm Spy.CallRemovePreparer).
  - apply (Hm Spy.CallRemoveAccepter).
  - unfold handleFullIdentityRead. cbn [FullIdentityRead Spy.spy]. unfold Spy.logged.
    cbn [fst snd].
    destruct (FullIdentityRead proposer ps (Vars_key r)) as [ps' [state [e|]]]; (cbn [fst snd]; apply Hone).
  - unfold handleFastForwardIncrement. cbn [FastForwardIncrement Spy.spy].
    unfold Spy.logged. cbn [fst snd].
    destruct (FastForwardIncrement proposer ps (Vars_key r) (getBallot (ReqHeader r)))
      as [ps' [age [e|]]]; (cbn [fst snd]; apply Hone).
Qed.

(** X12.  On a request a handler calls the proposer once or not at all.
    Get, delete, full identity read and fast forward make exactly one
    call; CAS makes none on a body without separator and otherwise exactly
    one, with the swap built from the body cut at its first separator; a
    membership handler makes none on a descriptor [url.Parse] rejects and
    otherwise exactly one, of its own method.  So no handler calls the
    proposer more than once: an error, a lost ballot included, is never
    retried. *)
Theorem handlers_call_proposer_once_or_not_at_all {P URL : Type}
    (url_Parse : string → error + URL) (proposer : Proposer P URL)
    (ps : P) (log : list (Spy.call URL)) (r : Request) :
  let calls := λ handler : P * list (Spy.call URL) → ResponseWriter → Request
                           → (P * list (Spy.call URL)) * Served,
                 (handler (ps, log) NewRecorder r).1.2 in
  calls (handleGet (Spy.spy proposer))
    = log ++ [Spy.CallPropose (Vars_key r) handleGet_read]
  ∧ calls (handleDel (Spy.spy proposer))
    = log ++ [Spy.CallPropose (Vars_key r) (handleDel_cas (ReqBody r) [])]
  ∧ calls (handleFullIdentityRead (Spy.spy proposer))
    = log ++ [Spy.CallFullIdentityRead (Vars_key r)]
  ∧ calls (handleFastForwardIncrement (Spy.spy proposer))
    = log ++ [Spy.CallFastForwardIncrement (Vars_key r) (getBallot (ReqHeader r))]
  ∧ (¬ occurs_in separator (ReqBody r) → calls (handleCAS (Spy.spy proposer)) = log)
  ∧ (occurs_in separator (ReqBody r) →
     ∃ curr next,
       ReqBody r = curr ++ separator ++ next
       ∧ ¬ occurs_in separator (curr ++ [x0a])
       ∧ calls (handleCAS (Spy.spy proposer))
         = log ++ [Spy.CallPropose (Vars_key r) (handleCAS_cas curr next)])
  ∧ (∀ e, url_Parse (string_of_bytes (ReqBody r)) = inl e →
       calls (handleAddAccepter url_Parse (Spy.spy proposer)) = log
       ∧ calls (handleAddPreparer url_Parse (Spy.spy proposer)) = log
       ∧ calls (handleRemovePreparer url_Parse (Spy.spy proposer)) = log
       ∧ calls (handleRemoveAccepter url_Parse (Spy.spy proposer)) = log)
  ∧ (∀ u, url_Parse (string_of_bytes (ReqBody r)) = inr u →
       calls (handleAddAccepter url_Parse (Spy.spy proposer))
         = log ++ [Spy.CallAddAccepter (Build_AcceptorClient u)]
       ∧ calls (handleAddPreparer url_Parse (Spy.spy proposer))
         = log ++ [Spy.CallAddPreparer (Build_AcceptorClient u)]
       ∧ calls (handleRemovePreparer url_Parse (Spy.spy proposer))
         = log ++ [Spy.CallRemovePreparer (Build_AcceptorClient u)]
       ∧ calls (handleRemoveAccepter url_Parse (Spy.spy proposer))
         = log ++ [Spy.CallRemoveAccepter (Build_AcceptorClient u)])
  ∧ Forall (λ handler, ∃ made, calls handler = log ++ made ∧ (length made ≤ 1)%nat)
      [ handleGet (Spy.spy proposer);
        handleCAS (Spy.spy proposer);
        handleDel (Spy.spy proposer);
        handleAddAccepter url_Parse (Spy.spy proposer);
        handleAddPreparer url_Parse (Spy.spy proposer);
        handleRemovePreparer url_Parse (Spy.spy proposer);
        handleRemoveAccepter url_Parse (Spy.spy proposer);
        handleFullIdentityRead (Spy.spy proposer);
        handleFastForwardIncrement (Spy.spy proposer) ].
Proof.
  intros calls. unfold calls.
  split; [|split; [|split; [|split; [|split; [|split; [|split; [|split]]]]]]].
  - unfold handleGet. cbn [Propose Spy.spy]. unfold Spy.logged. cbn [fst snd].
    by destruct (Propose proposer ps (Vars_key r) handleGet_read) as [ps' [[state b] [e|]]].
  - unfold handleDel. cbn [Propose Spy.spy]. unfold Spy.logged. cbn [fst snd].
    by destruct (Propose proposer ps (Vars_key r) (handleDel_cas (ReqBody r) []))
      as [ps' [[state b] [e|]]]; [|destruct (negb (bytes_Equal state []))].
  - unfold handleFullIdentityRead. cbn [FullIdentityRead Spy.spy]. unfold Spy.logged.
    cbn [fst snd].
    by destruct (FullIdentityRead proposer ps (Vars_key r)) as [ps' [state [e|]]].
  - unfold handleFastForwardIncrement. cbn [FastForwardIncrement Spy.spy].
    unfold Spy.logged. cbn [fst snd].
    by destruct (FastForwardIncrement proposer ps (Vars_key r) (getBallot (ReqHeader r)))
      as [ps' [age [e|]]].
  - intros Hno.
    assert (∀ a b, ReqBody r ≠ a ++ separator ++ b) as Hno'.
    { intros a b Hab. apply Hno. by exists a, b. }
    by rewrite (proj2 (handleCAS_no_separator (Spy.spy proposer) (ps, log) NewRecorder r Hno')).
  - intros Hyes.
    destruct (bytes_SplitN_groups (ReqBody r)) as [[Hm _]|(curr & next & Hs & Hb)].
    { destruct Hyes as (a & b & Hab).
      by destruct (proj1 (bytes_Index_absent _ _) Hm a b). }
    exists curr, next. split; [done|]. split; [by apply (carries_no_earlier_separator r curr next)|].
    unfold handleCAS. rewrite Hs. cbn [lookup list_lookup].
    cbn [Propose Spy.spy]. unfold Spy.logged. cbn [fst snd].
    by destruct (Propose proposer ps (Vars_key r) (handleCAS_cas curr next))
      as [ps' [[state b] [e|]]]; [destruct (is_ConflictError e)|].
  - intros e He.
    unfold handleAddAccepter, handleAddPreparer, handleRemovePreparer, handleRemoveAccepter.
    by rewrite !(membership_malformed url_Parse _ _ _ _ _ He).
  - intros u Hu.
    unfold handleAddAccepter, handleAddPreparer, handleRemovePreparer, handleRemoveAccepter,
      membership.
    rewrite Hu. cbn [AddAccepter AddPreparer RemovePreparer RemoveAccepter Spy.spy].
    unfold Spy.logged. cbn [fst snd].
    destruct (AddAccepter proposer ps (Build_AcceptorClient u)) as [? [?|]];
      destruct (AddPreparer proposer ps (Build_AcceptorClient u)) as [? [?|]];
      destruct (RemovePreparer proposer ps (Build_AcceptorClient u)) as [? [?|]];
      destruct (RemoveAccepter proposer ps (Build_AcceptorClient u)) as [? [?|]];
      repeat split.
  - apply handlers_log_grows_by_at_most_one.
Qed.
